(** * Image generator agent: the task-lifecycle orchestrator

    A shallow embedding of [src/main.py] ([ImageGeneratorAgent.run]) together
    with the collaborators it calls ([src/image_generator.py],
    [src/utils/utils.py], [src/utils/ipfs_helper.py]) and the part of Python's
    [json] module that [run] relies on.

    Conventions of the embedding:
    - a Python [str] is a Rocq [string] holding its UTF-8 bytes; every test the
      source makes on a string ('{', '}', quotes, whitespace, newline) is on an
      ASCII character, and UTF-8 never uses an ASCII byte inside a longer
      sequence, so those tests agree with the code-point view;
    - a Python [dict] is an association list in insertion order with pairwise
      distinct keys (Python dicts keep insertion order);
    - a call that may raise returns a [result]; [run] lives in a small monad
      that also records, in order, every call it makes to a collaborator;
    - standard output encodes as UTF-8 and is strict about it, so that [print]
      raises [UnicodeEncodeError] on a text that holds a lone surrogate.  The
      print of the description (line 78 of [main.py], outside the [try]) is
      part of [run].  The other prints are left out: they write constants, the
      text of an exception, the prompt built from a description that line 78
      has printed before, or identifiers issued by the gateway and by Pinata
      (the file name, the content identifier and its URL), which are taken to
      print;
    - every exception of the model derives from Python's [Exception]. *)

From Stdlib Require Import String Ascii List ZArith Lia Bool Arith.
Import ListNotations.
Local Open Scope list_scope.
Local Open Scope string_scope.

(** ** Python values and strings *)

Module Py.

(** The values a decoded JSON document (and so a step received from the
    gateway) can hold.  A float keeps the lexeme it was read from: floating
    point arithmetic is not modelled, and what Python does with a float is
    asked from [Runtime] below. *)
#[warnings="-register-all"]
Inductive value : Type :=
| VNone
| VBool (b : bool)
| VInt (z : Z)
| VFloat (lexeme : string)
| VStr (s : string)
| VList (l : list value)
| VDict (d : list (string * value)).

Definition dict := list (string * value).

(** What the interpreter does with floats and with the [str()] of containers,
    and its two limits that [json.loads] can hit; a parameter of the
    development.  [run] is entered a few frames deep, far from the recursion
    limit: [json.loads] can always enter one container, and [nesting_room]
    more below it. *)
Record Runtime : Type := {
  float_str : string -> string;       (* str(float(lexeme)) *)
  float_bool : string -> bool;        (* bool(float(lexeme)) *)
  container_str : value -> string;    (* str(list) and str(dict) *)
  int_max_str_digits : nat;           (* sys.get_int_max_str_digits(), 0: no limit *)
  nesting_room : nat                  (* containers that can be entered below the first *)
}.

(** An exception: its class name and what [str(e)] gives. *)
Record exn : Type := mkExn { exn_class : string; exn_str : string }.

Inductive result (A : Type) : Type :=
| Ok (a : A)
| Raise (e : exn).
Arguments Ok {A} a.
Arguments Raise {A} e.

Definition dquote : ascii := "034"%char.
Definition squote : ascii := "039"%char.
Definition LF : ascii := "010"%char.
Definition newline : string := String LF EmptyString.

(** [s.startswith(p)] *)
Fixpoint startswith (s p : string) {struct p} : bool :=
  match p with
  | EmptyString => true
  | String c p' =>
      match s with
      | EmptyString => false
      | String d s' => Ascii.eqb d c && startswith s' p'
      end
  end.

Fixpoint drop (n : nat) (s : string) : string :=
  match n with
  | O => s
  | S n' => match s with EmptyString => EmptyString | String _ s' => drop n' s' end
  end.

(** [s.endswith(p)] *)
Definition endswith (s p : string) : bool :=
  (String.length p <=? String.length s)%nat
  && String.eqb (drop (String.length s - String.length p) s) p.

(** [sep.join(parts)] *)
Fixpoint join (sep : string) (parts : list string) : string :=
  match parts with
  | [] => EmptyString
  | [x] => x
  | x :: rest => x ++ sep ++ join sep rest
  end.

(** [template.replace(old, new)], for a non-empty [old]: occurrences are
    replaced from the left and do not overlap. *)
Fixpoint replace_fuel (fuel : nat) (s old new : string) : string :=
  match fuel with
  | O => s
  | S fuel' =>
      match s with
      | EmptyString => EmptyString
      | String c s' =>
          if startswith s old
          then new ++ replace_fuel fuel' (drop (String.length old) s) old new
          else String c (replace_fuel fuel' s' old new)
      end
  end.

Definition replace (s old new : string) : string :=
  replace_fuel (String.length s) s old new.

(** Decimal rendering of a Python [int]. *)
Definition digit_char (n : nat) : ascii := ascii_of_nat (48 + n).

Fixpoint pos_digits (fuel : nat) (n : N) (acc : string) : string :=
  match fuel with
  | O => acc
  | S fuel' =>
      let acc' := String (digit_char (N.to_nat (N.modulo n 10))) acc in
      if (n <? 10)%N then acc' else pos_digits fuel' (N.div n 10) acc'
  end.

Definition N_str (n : N) : string := pos_digits (S (N.to_nat (N.log2 n))) n EmptyString.

Definition int_str (z : Z) : string :=
  match z with
  | Z0 => "0"
  | Zpos p => N_str (Npos p)
  | Zneg p => String "-" (N_str (Npos p))
  end.

(** Lower-case hexadecimal, four digits. *)
Definition hex_digit (n : N) : ascii :=
  if (n <? 10)%N then ascii_of_N (48 + n) else ascii_of_N (87 + n).

Definition hex4_str (u : N) : string :=
  String (hex_digit (N.land (N.shiftr u 12) 15))
    (String (hex_digit (N.land (N.shiftr u 8) 15))
      (String (hex_digit (N.land (N.shiftr u 4) 15))
        (String (hex_digit (N.land u 15)) EmptyString))).

(** *** Standard output

    A surrogate code point, U+D800 to U+DFFF, is held as the three bytes ED,
    A0 to BF, 80 to BF; well-formed UTF-8 has no such sequence. *)
Definition is_continuation (c : ascii) : bool :=
  let n := N_of_ascii c in (128 <=? n)%N && (n <=? 191)%N.

Definition is_surrogate (a b c : ascii) : bool :=
  (N_of_ascii a =? 237)%N && (160 <=? N_of_ascii b)%N && (N_of_ascii b <=? 191)%N
  && is_continuation c.

Definition surrogate_code_point (b c : ascii) : N :=
  (53248 + N.shiftl (N.land (N_of_ascii b) 63) 6 + N.land (N_of_ascii c) 63)%N.

(** The number of surrogates [s] starts with. *)
Fixpoint leading_surrogates (s : string) : N :=
  match s with
  | String a (String b (String c rest)) =>
      if is_surrogate a b c then (1 + leading_surrogates rest)%N else 0%N
  | _ => 0%N
  end.

(** The first surrogate of [s]: its index, counted in code points from [pos],
    and the text from there on. *)
Fixpoint find_surrogate (pos : N) (s : string) : option (N * string) :=
  match s with
  | EmptyString => None
  | String c s' =>
      if (0 <? leading_surrogates s)%N then Some (pos, s)
      else find_surrogate (if is_continuation c then pos else (pos + 1)%N) s'
  end.

(** The [UnicodeEncodeError] of the UTF-8 codec on [s], if it raises one: the
    error reports the first run of surrogates. *)
Definition encode_error (s : string) : option exn :=
  match find_surrogate 0 s with
  | None => None
  | Some (pos, found) =>
      Some (mkExn "UnicodeEncodeError"
              (match found, leading_surrogates found with
               | String _ (String b (String c _)), 1%N =>
                   "'utf-8' codec can't encode character '\u"
                     ++ hex4_str (surrogate_code_point b c)
                     ++ "' in position " ++ N_str pos
               | _, n =>
                   "'utf-8' codec can't encode characters in position "
                     ++ N_str pos ++ "-" ++ N_str (pos + n - 1)
               end ++ ": surrogates not allowed"))
  end.

(** [print(label, v)]: the label is a constant; [str(v)] is written next.  The
    [str()] of a value that is not a string is made of [repr]s, which escape
    surrogates, so it always prints. *)
Definition print (v : value) : result unit :=
  match v with
  | VStr s =>
      match encode_error s with
      | Some e => Raise e
      | None => Ok tt
      end
  | _ => Ok tt
  end.

(** [str(v)], as an f-string field [{v}] renders it. *)
Definition str (py : Runtime) (v : value) : string :=
  match v with
  | VNone => "None"
  | VBool true => "True"
  | VBool false => "False"
  | VInt z => int_str z
  | VFloat lexeme => float_str py lexeme
  | VStr s => s
  | VList _ | VDict _ => container_str py v
  end.

(** [bool(v)], the truth value tested by [if not v]. *)
Definition truthy (py : Runtime) (v : value) : bool :=
  match v with
  | VNone => false
  | VBool b => b
  | VInt z => negb (Z.eqb z 0)
  | VFloat lexeme => float_bool py lexeme
  | VStr s => negb (String.eqb s EmptyString)
  | VList l => match l with [] => false | _ => true end
  | VDict d => match d with [] => false | _ => true end
  end.

(** [type(v).__name__] *)
Definition type_name (v : value) : string :=
  match v with
  | VNone => "NoneType"
  | VBool _ => "bool"
  | VInt _ => "int"
  | VFloat _ => "float"
  | VStr _ => "str"
  | VList _ => "list"
  | VDict _ => "dict"
  end.

(** [d.get(k)]: [None] of Rocq when the key is absent. *)
Fixpoint dict_get (d : dict) (k : string) : option value :=
  match d with
  | [] => None
  | (k', v) :: d' => if String.eqb k' k then Some v else dict_get d' k
  end.

(** [d.get(k, default)] *)
Definition dict_get_default (d : dict) (k : string) (default : value) : value :=
  match dict_get d k with
  | Some v => v
  | None => default
  end.

(** [repr] of a key that is a plain identifier, as [KeyError] shows it. *)
Definition key_repr (k : string) : string :=
  String squote (k ++ String squote EmptyString).

(** [d[k]]: raises [KeyError] when the key is absent. *)
Definition getitem (d : dict) (k : string) : result value :=
  match dict_get d k with
  | Some v => Ok v
  | None => Raise (mkExn "KeyError" (key_repr k))
  end.

(** [d[k] = v]: a present key keeps its place and takes the new value, a new
    key goes last. *)
Fixpoint dict_set (d : dict) (k : string) (v : value) : dict :=
  match d with
  | [] => [(k, v)]
  | (k', v') :: d' =>
      if String.eqb k' k then (k', v) :: d' else (k', v') :: dict_set d' k v
  end.

End Py.

(** ** [json.loads]

    The decoder of CPython's [json] module with its default settings
    ([strict=True], no hooks), as far as its result goes: the value decoded, a
    [JSONDecodeError], or one of the two errors that are not decoding errors,
    the [ValueError] of [int] on an integer literal with more digits than the
    interpreter converts and the [RecursionError] of the scanner on containers
    nested deeper than the interpreter allows.  Both are raised where the
    scanner meets the literal or the container, before it reads on.  The
    position carried by a [JSONDecodeError] is only ever printed by [run] and
    is left out. *)

Module Json.
Import Py.

(** The outcome of scanning a prefix of the text. *)
Inductive scan (A : Type) : Type :=
| Scanned (a : A) (rest : string)
| DecodeError (msg : string)
| Raised (e : exn)
| OutOfFuel.
Arguments Scanned {A} a rest.
Arguments DecodeError {A} msg.
Arguments Raised {A} e.
Arguments OutOfFuel {A}.

Definition scan_map {A B : Type} (f : A -> B) (r : scan A) : scan B :=
  match r with
  | Scanned a rest => Scanned (f a) rest
  | DecodeError msg => DecodeError msg
  | Raised e => Raised e
  | OutOfFuel => OutOfFuel
  end.

(** The characters of [WHITESPACE]: space, tab, line feed, carriage return. *)
Definition is_ws (c : ascii) : bool :=
  Ascii.eqb c " " || Ascii.eqb c "009" || Ascii.eqb c "010" || Ascii.eqb c "013".

Fixpoint skip_ws (s : string) : string :=
  match s with
  | String c s' => if is_ws c then skip_ws s' else s
  | EmptyString => EmptyString
  end.

Definition is_digit (c : ascii) : bool :=
  let n := nat_of_ascii c in (48 <=? n)%nat && (n <=? 57)%nat.

Definition hex_val (c : ascii) : option N :=
  let n := N_of_ascii c in
  if (48 <=? n)%N && (n <=? 57)%N then Some (n - 48)%N
  else if (97 <=? n)%N && (n <=? 102)%N then Some (n - 87)%N
  else if (65 <=? n)%N && (n <=? 70)%N then Some (n - 55)%N
  else None.

(** The four hex digits of a [\uXXXX] escape. *)
Definition hex4 (a b c d : ascii) : option N :=
  match hex_val a, hex_val b, hex_val c, hex_val d with
  | Some x, Some y, Some z, Some t => Some (((x * 16 + y) * 16 + z) * 16 + t)%N
  | _, _, _, _ => None
  end.

Definition is_high_surrogate (u : N) : bool := (55296 <=? u)%N && (u <=? 56319)%N.
Definition is_low_surrogate (u : N) : bool := (56320 <=? u)%N && (u <=? 57343)%N.

Definition join_surrogates (hi lo : N) : N :=
  (65536 + N.lor (N.shiftl (hi - 55296) 10) (lo - 56320))%N.

Definition byte (n : N) : ascii := ascii_of_N n.

(** The UTF-8 bytes of a code point (a lone surrogate takes the three-byte
    form). *)
Definition utf8 (u : N) : string :=
  if (u <? 128)%N then String (byte u) EmptyString
  else if (u <? 2048)%N then
    String (byte (192 + N.shiftr u 6))
      (String (byte (128 + N.land u 63)) EmptyString)
  else if (u <? 65536)%N then
    String (byte (224 + N.shiftr u 12))
      (String (byte (128 + N.land (N.shiftr u 6) 63))
        (String (byte (128 + N.land u 63)) EmptyString))
  else
    String (byte (240 + N.shiftr u 18))
      (String (byte (128 + N.land (N.shiftr u 12) 63))
        (String (byte (128 + N.land (N.shiftr u 6) 63))
          (String (byte (128 + N.land u 63)) EmptyString))).

(** The character a one-letter escape stands for. *)
Definition simple_escape (c : ascii) : option ascii :=
  if Ascii.eqb c dquote then Some dquote
  else if Ascii.eqb c "\" then Some "\"%char
  else if Ascii.eqb c "/" then Some "/"%char
  else if Ascii.eqb c "b" then Some "008"%char
  else if Ascii.eqb c "f" then Some "012"%char
  else if Ascii.eqb c "n" then Some "010"%char
  else if Ascii.eqb c "r" then Some "013"%char
  else if Ascii.eqb c "t" then Some "009"%char
  else None.

(** A high surrogate read from a [\uXXXX] escape waits for the escape that
    follows: it pairs with a low surrogate and otherwise stands alone. *)
Definition flush (pending : option N) : string :=
  match pending with
  | Some hi => utf8 hi
  | None => EmptyString
  end.

(** [scanstring]: the text after the opening quote, up to the closing one. *)
Fixpoint scanstring (pending : option N) (s : string) : scan string :=
  match s with
  | EmptyString => DecodeError "Unterminated string starting at"
  | String c rest =>
      if Ascii.eqb c dquote then Scanned (flush pending) rest
      else if Ascii.eqb c "\" then
        match rest with
        | EmptyString => DecodeError "Unterminated string starting at"
        | String e rest1 =>
            if Ascii.eqb e "u" then
              match rest1 with
              | String h1 (String h2 (String h3 (String h4 rest2))) =>
                  match hex4 h1 h2 h3 h4 with
                  | None => DecodeError "Invalid \uXXXX escape"
                  | Some u =>
                      match pending with
                      | Some hi =>
                          if is_low_surrogate u
                          then scan_map (append (utf8 (join_surrogates hi u)))
                                 (scanstring None rest2)
                          else if is_high_surrogate u
                          then scan_map (append (utf8 hi)) (scanstring (Some u) rest2)
                          else scan_map (append (utf8 hi ++ utf8 u)) (scanstring None rest2)
                      | None =>
                          if is_high_surrogate u
                          then scanstring (Some u) rest2
                          else scan_map (append (utf8 u)) (scanstring None rest2)
                      end
                  end
              | _ => DecodeError "Invalid \uXXXX escape"
              end
            else
              match simple_escape e with
              | Some ch =>
                  scan_map (fun t => flush pending ++ String ch t) (scanstring None rest1)
              | None => DecodeError "Invalid \escape"
              end
        end
      else if (nat_of_ascii c <? 32)%nat then DecodeError "Invalid control character at"
      else scan_map (fun t => flush pending ++ String c t) (scanstring None rest)
  end.

(** Numbers, as [NUMBER_RE] matches them: an optional minus sign and either a
    single 0 or a digit 1-9 followed by digits; then, optionally, a point and
    one digit or more; then, optionally, e or E, an optional sign and one digit
    or more.  An optional part that cannot be matched in full is left unread. *)
Fixpoint span_digits (s : string) : string * string :=
  match s with
  | String c s' =>
      if is_digit c then let (ds, rest) := span_digits s' in (String c ds, rest)
      else (EmptyString, s)
  | EmptyString => (EmptyString, EmptyString)
  end.

Definition match_digits (sign body : string) : option (string * string) :=
  match body with
  | String c s' =>
      if Ascii.eqb c "0" then Some (sign ++ "0", s')
      else if is_digit c then
        let (ds, rest) := span_digits s' in Some (sign ++ String c ds, rest)
      else None
  | EmptyString => None
  end.

Definition match_integer (s : string) : option (string * string) :=
  match s with
  | String c s' =>
      if Ascii.eqb c "-" then match_digits "-" s' else match_digits EmptyString s
  | EmptyString => None
  end.

Definition match_frac (s : string) : string * string :=
  match s with
  | String c s' =>
      if Ascii.eqb c "." then
        match span_digits s' with
        | (EmptyString, _) => (EmptyString, s)
        | (ds, rest) => (String c ds, rest)
        end
      else (EmptyString, s)
  | EmptyString => (EmptyString, s)
  end.

Definition match_exp (s : string) : string * string :=
  match s with
  | String e s' =>
      if Ascii.eqb e "e" || Ascii.eqb e "E" then
        let (sign, body) :=
          match s' with
          | String g s'' =>
              if Ascii.eqb g "+" || Ascii.eqb g "-"
              then (String g EmptyString, s'') else (EmptyString, s')
          | EmptyString => (EmptyString, s')
          end in
        match span_digits body with
        | (EmptyString, _) => (EmptyString, s)
        | (ds, rest) => (String e (sign ++ ds), rest)
        end
      else (EmptyString, s)
  | EmptyString => (EmptyString, s)
  end.

Fixpoint digits_N (s : string) (acc : N) : N :=
  match s with
  | String c s' => digits_N s' (acc * 10 + (N_of_ascii c - 48))%N
  | EmptyString => acc
  end.

(** [int(lexeme)] on a lexeme matched by [match_integer]. *)
Definition int_of_lexeme (s : string) : Z :=
  match s with
  | String c s' =>
      if Ascii.eqb c "-" then Z.opp (Z.of_N (digits_N s' 0))
      else Z.of_N (digits_N s 0)
  | EmptyString => 0%Z
  end.

(** The number of digits of an integer lexeme. *)
Definition count_digits (lexeme : string) : nat :=
  if startswith lexeme "-" then String.length lexeme - 1 else String.length lexeme.

(** The [ValueError] of [int] on a literal of [digits] digits. *)
Definition int_digits_error (limit digits : nat) : exn :=
  mkExn "ValueError"
    ("Exceeds the limit (" ++ N_str (N.of_nat limit)
       ++ " digits) for integer string conversion: value has "
       ++ N_str (N.of_nat digits)
       ++ " digits; use sys.set_int_max_str_digits() to increase the limit").

(** [int(lexeme)] as the interpreter runs it: a literal of more than 640
    digits is checked against the limit, when there is one. *)
Definition parse_int (py : Runtime) (lexeme : string) : result value :=
  let digits := count_digits lexeme in
  if (640 <? digits)%nat && (0 <? int_max_str_digits py)%nat
     && (int_max_str_digits py <? digits)%nat
  then Raise (int_digits_error (int_max_str_digits py) digits)
  else Ok (VInt (int_of_lexeme lexeme)).

Definition match_number (py : Runtime) (s : string) : option (scan value) :=
  match match_integer s with
  | None => None
  | Some (int_part, rest) =>
      let (frac, rest1) := match_frac rest in
      let (exp, rest2) := match_exp rest1 in
      match frac, exp with
      | EmptyString, EmptyString =>
          match parse_int py int_part with
          | Ok v => Some (Scanned v rest2)
          | Raise e => Some (Raised e)
          end
      | _, _ => Some (Scanned (VFloat (int_part ++ frac ++ exp)) rest2)
      end
  end.

(** The [RecursionError] of the scanner on entering a container. *)
Definition recursion_error (container : string) : exn :=
  mkExn "RecursionError"
    ("maximum recursion depth exceeded while decoding a JSON " ++ container
       ++ " from a unicode string").

(** The scanner: [scan_once] reads one value, [scan_pairs] the members of an
    object after its first key's opening quote has been seen, [scan_items] the
    elements of an array.  [depth] is the number of containers that can still
    be entered below one another.  The fuel bounds the number of nested calls
    of the model; see [loads] for the amount given. *)
Fixpoint scan_once (py : Runtime) (fuel depth : nat) (s : string) : scan value :=
  match fuel with
  | O => OutOfFuel
  | S fuel' =>
      match s with
      | EmptyString => DecodeError "Expecting value"
      | String c rest =>
          if Ascii.eqb c dquote then scan_map VStr (scanstring None rest)
          else if Ascii.eqb c "{" then
            match depth with
            | O => Raised (recursion_error "object")
            | S depth' =>
                match skip_ws rest with
                | String d rest1 =>
                    if Ascii.eqb d "}" then Scanned (VDict []) rest1
                    else if Ascii.eqb d dquote
                    then scan_map VDict (scan_pairs py fuel' depth' [] rest1)
                    else DecodeError "Expecting property name enclosed in double quotes"
                | EmptyString =>
                    DecodeError "Expecting property name enclosed in double quotes"
                end
            end
          else if Ascii.eqb c "[" then
            match depth with
            | O => Raised (recursion_error "array")
            | S depth' =>
                match skip_ws rest with
                | String d rest1 =>
                    if Ascii.eqb d "]" then Scanned (VList []) rest1
                    else scan_map VList (scan_items py fuel' depth' (String d rest1))
                | EmptyString => DecodeError "Expecting value"
                end
            end
          else if startswith s "null" then Scanned VNone (drop 4 s)
          else if startswith s "true" then Scanned (VBool true) (drop 4 s)
          else if startswith s "false" then Scanned (VBool false) (drop 5 s)
          else
            match match_number py s with
            | Some r => r
            | None =>
                if startswith s "NaN" then Scanned (VFloat "NaN") (drop 3 s)
                else if startswith s "Infinity" then Scanned (VFloat "Infinity") (drop 8 s)
                else if startswith s "-Infinity" then Scanned (VFloat "-Infinity") (drop 9 s)
                else DecodeError "Expecting value"
            end
      end
  end

with scan_pairs (py : Runtime) (fuel depth : nat) (acc : dict) (s : string) : scan dict :=
  match fuel with
  | O => OutOfFuel
  | S fuel' =>
      match scanstring None s with
      | Scanned key rest =>
          match skip_ws rest with
          | String colon rest1 =>
              if Ascii.eqb colon ":" then
                match scan_once py fuel' depth (skip_ws rest1) with
                | Scanned v rest2 =>
                    let acc' := dict_set acc key v in
                    match skip_ws rest2 with
                    | String d rest3 =>
                        if Ascii.eqb d "}" then Scanned acc' rest3
                        else if Ascii.eqb d "," then
                          match skip_ws rest3 with
                          | String q rest4 =>
                              if Ascii.eqb q dquote
                              then scan_pairs py fuel' depth acc' rest4
                              else DecodeError
                                     "Expecting property name enclosed in double quotes"
                          | EmptyString =>
                              DecodeError
                                "Expecting property name enclosed in double quotes"
                          end
                        else DecodeError "Expecting ',' delimiter"
                    | EmptyString => DecodeError "Expecting ',' delimiter"
                    end
                | DecodeError msg => DecodeError msg
                | Raised e => Raised e
                | OutOfFuel => OutOfFuel
                end
              else DecodeError "Expecting ':' delimiter"
          | EmptyString => DecodeError "Expecting ':' delimiter"
          end
      | DecodeError msg => DecodeError msg
      | Raised e => Raised e
      | OutOfFuel => OutOfFuel
      end
  end

with scan_items (py : Runtime) (fuel depth : nat) (s : string) : scan (list value) :=
  match fuel with
  | O => OutOfFuel
  | S fuel' =>
      match scan_once py fuel' depth s with
      | Scanned v rest =>
          match skip_ws rest with
          | String d rest1 =>
              if Ascii.eqb d "]" then Scanned [v] rest1
              else if Ascii.eqb d "," then
                scan_map (cons v) (scan_items py fuel' depth (skip_ws rest1))
              else DecodeError "Expecting ',' delimiter"
          | EmptyString => DecodeError "Expecting ',' delimiter"
          end
      | DecodeError msg => DecodeError msg
      | Raised e => Raised e
      | OutOfFuel => OutOfFuel
      end
  end.

(** What [json.loads(s)] comes to: a value, a [JSONDecodeError], or another
    exception. *)
Inductive decoded : Type :=
| Decoded (v : value)
| JSONDecodeError (msg : string)
| Raises (e : exn)
| Exhausted.

(** [json.loads(s)]: leading whitespace, one value, trailing whitespace, end
    of text.  Every nested call of the scanner is on a strictly shorter text
    and the loops over members and elements spend one call per value, so twice
    the length of the text, and one more, is fuel enough
    ([loads_never_exhausted]). *)
Definition loads (py : Runtime) (s : string) : decoded :=
  match scan_once py (S (2 * String.length s)) (S (nesting_room py)) (skip_ws s) with
  | Scanned v rest =>
      match skip_ws rest with
      | EmptyString => Decoded v
      | String _ _ => JSONDecodeError "Extra data"
      end
  | DecodeError msg => JSONDecodeError msg
  | Raised e => Raises e
  | OutOfFuel => Exhausted
  end.

(** The exceptions of [json.loads] that are not decoding errors. *)
Definition limit_error (e : exn) : Prop :=
  exn_class e = "ValueError" \/ exn_class e = "RecursionError".

End Json.

(** ** The collaborators' interface

    Everything outside the repository that the code calls: the gateway
    ([payment.ai_protocol]), the diffusion pipeline, the image's [save], the
    Pinata client and the file system.  Each call is a function of its
    arguments giving the value returned or the exception raised; within one
    execution of [run] no two gateway calls have the same arguments. *)

Module Env.
Import Py.

(** Modelled from the spec: the members of [payments_py]'s
    [AgentExecutionStatus] that the source uses and their [.value], which the
    repository imports but does not define; the spec names the statuses
    Pending, Completed and Failed. *)
Inductive AgentExecutionStatus : Type := Pending | Completed | Failed.

Definition status_value (st : AgentExecutionStatus) : string :=
  match st with
  | Pending => "Pending"
  | Completed => "Completed"
  | Failed => "Failed"
  end.

(** [TaskLog(task_id=..., message=..., level=..., task_status=...)]; the
    constructor, which [payments_py] defines, is taken to accept the values
    it is given. *)
Record TaskLog : Type := {
  task_id : value;
  message : string;
  level : string;
  task_status : option string
}.

(** The keyword arguments [generate_image] passes to the pipeline, the seed of
    the generator it builds, and whether the call is made under
    [torch.autocast]. *)
Record pipe_call : Type := {
  prompt : string;
  guidance_scale : Z;
  num_inference_steps : Z;
  height : Z;
  width : Z;
  negative_prompt : string;
  manual_seed : Z;
  autocast : bool
}.

Record World (Image : Type) : Type := {
  get_step : value -> result dict;
  log_task : TaskLog -> result unit;
  update_step : value -> value -> value -> dict -> result unit;
  device_is_cuda : bool;
  pipe : pipe_call -> result (list Image);
  image_save : Image -> string -> result unit;
  pin_file_to_ipfs : string -> result dict;
  path_exists : string -> bool;
  os_remove : string -> result unit
}.
Arguments get_step {Image} w _.
Arguments log_task {Image} w _.
Arguments update_step {Image} w _ _ _ _.
Arguments device_is_cuda {Image} w.
Arguments pipe {Image} w _.
Arguments image_save {Image} w _ _.
Arguments pin_file_to_ipfs {Image} w _.
Arguments path_exists {Image} w _.
Arguments os_remove {Image} w _.

End Env.

(** ** [src/image_generator.py] *)

Module ImageGenerator.
Import Py Env.

Definition type_error_concat (v : value) : exn :=
  mkExn "TypeError"
    ("can only concatenate str (not " ++ String dquote (type_name v)
       ++ String dquote ") to str").

(** [create_prompt]: ['photo of ' + character_prompt] raises [TypeError] when
    the argument is not a string. *)
Definition create_prompt (character_prompt : value) : result string :=
  match character_prompt with
  | VStr s =>
      Ok ("photo of " ++ s
          ++ " (cinematic lighting:1.1) dynamic angle, highest quality,  (movie poster pose), analog style, high-resolution, detailed, concept art")
  | v => Raise (type_error_concat v)
  end.

Definition create_negative_prompt : string :=
  "(nude), breasts, photoshop, airbrush, kitsch, oversaturated, low-res, Deformed, bad anatomy, disfigured, poorly drawn face, mutation, mutated, extra limb,poorly drawn hands, missing limb, floating limbs, disconnected limbs, malformed hands, long neck, long body, disgusting, poorly drawn, mutilated, mangled, conjoined twins, extra legs, extra arms, meme, deformed, elongated, strabismus, heterochromia, watermark, extra fingers, blind eyes, dead eyes".

Section Generator.
Context {Image : Type} (w : World Image).

(** [generate_image]: both branches on the device make the same pipeline call,
    the CUDA one under [torch.autocast]; the image is [output.images[0]]. *)
Definition generate_image (character : value) : result Image :=
  match create_prompt character with
  | Raise e => Raise e
  | Ok p =>
      let negative := create_negative_prompt in
      match pipe w {| prompt := p; guidance_scale := 5; num_inference_steps := 50;
                      height := 512; width := 512; negative_prompt := negative;
                      manual_seed := 1; autocast := device_is_cuda w |} with
      | Raise e => Raise e
      | Ok [] => Raise (mkExn "IndexError" "list index out of range")
      | Ok (image :: _) => Ok image
      end
  end.

End Generator.
End ImageGenerator.

(** ** [src/utils/ipfs_helper.py] and [src/utils/utils.py] *)

Module IPFSHelper.
Import Py Env.

Definition IPFS_PUBLIC_GATEWAY : string := "https://gateway.pinata.cloud/ipfs/{CID}".

Section Helper.
Context {Image : Type} (w : World Image).

(** [upload_image_to_ipfs]: the image is saved before the [try]; inside it the
    file is pinned and the CID read from the answer, any exception being
    raised again as [Exception("Failed to upload image to Pinata: ...")]; the
    [finally] clause removes the file, and an exception of its own replaces
    the pending outcome. *)
Definition upload_image_to_ipfs (image : Image) (filename : string) : result value :=
  let temp_file_path := filename in
  match image_save w image temp_file_path with
  | Raise e => Raise e
  | Ok _ =>
      let body :=
        match pin_file_to_ipfs w temp_file_path with
        | Raise e =>
            Raise (mkExn "Exception" ("Failed to upload image to Pinata: " ++ exn_str e))
        | Ok answer =>
            match getitem answer "IpfsHash" with
            | Raise e =>
                Raise (mkExn "Exception" ("Failed to upload image to Pinata: " ++ exn_str e))
            | Ok cid => Ok cid
            end
        end in
      if path_exists w temp_file_path then
        match os_remove w temp_file_path with
        | Raise e => Raise e
        | Ok _ => body
        end
      else body
  end.

(** How an error of argument type names the argument it was given: [None]
    by its own name, anything else by the name of its type. *)
Definition argument_name (v : value) : string :=
  match v with
  | VNone => "None"
  | _ => type_name v
  end.

(** [get_ipfs_url]: [str.replace] wants a string. *)
Definition get_ipfs_url (cid : value) : result string :=
  match cid with
  | VStr c => Ok (replace IPFS_PUBLIC_GATEWAY "{CID}" c)
  | v => Raise (mkExn "TypeError"
                  ("replace() argument 2 must be str, not " ++ argument_name v))
  end.

(** [utils.upload_image_and_get_url] *)
Definition upload_image_and_get_url (image : Image) (filename : string) : result string :=
  match upload_image_to_ipfs image filename with
  | Raise e => Raise e
  | Ok cid => get_ipfs_url cid
  end.

End Helper.
End IPFSHelper.

(** ** [src/main.py]: [ImageGeneratorAgent.run] *)

Module Agent.
Import Py Env.

(** A call made by [run] to one of its collaborators, with its arguments. *)
Inductive event (Image : Type) : Type :=
| GetStep (step_id : value)
| LogTask (entry : TaskLog)
| GenerateImage (character : value)
| Upload (image : Image) (filename : string)
| UpdateStep (did task_id step_id : value) (step : dict).
Arguments GetStep {Image} step_id.
Arguments LogTask {Image} entry.
Arguments GenerateImage {Image} character.
Arguments Upload {Image} image filename.
Arguments UpdateStep {Image} did task_id step_id step.

(** The monad of [run]: the calls made so far go in, the outcome and the calls
    made so far come out.  An exception keeps the calls already made. *)
Definition M (Image A : Type) : Type :=
  list (event Image) -> result A * list (event Image).

Definition ret {Image A : Type} (a : A) : M Image A := fun t => (Ok a, t).

Definition bind {Image A B : Type} (m : M Image A) (k : A -> M Image B) : M Image B :=
  fun t =>
    match m t with
    | (Ok a, t') => k a t'
    | (Raise e, t') => (Raise e, t')
    end.

(** An expression of the source that may raise and calls no collaborator. *)
Definition lift {Image A : Type} (r : result A) : M Image A := fun t => (r, t).

(** A call to a collaborator: recorded, then answered. *)
Definition call {Image A : Type} (ev : event Image) (r : result A) : M Image A :=
  fun t => (r, (t ++ [ev])%list).

(** [try: body  except Exception as e: handler(e)] *)
Definition try_except {Image A : Type}
    (body : M Image A) (handler : exn -> M Image A) : M Image A :=
  fun t =>
    match body t with
    | (Ok a, t') => (Ok a, t')
    | (Raise e, t') => handler e t'
    end.

Notation "x <- m ;; k" := (bind m (fun x => k))
  (at level 61, m at next level, right associativity).

(** [v != s] for a string literal [s]. *)
Definition differs_from (v : value) (s : string) : bool :=
  match v with
  | VStr t => negb (String.eqb t s)
  | _ => true
  end.

(** The four log entries of [run]. *)
Definition start_log (tid : value) : TaskLog :=
  {| task_id := tid; message := "Starting image generation...";
     level := "info"; task_status := None |}.

Definition no_data_log (tid : value) : TaskLog :=
  {| task_id := tid; message := "No character data provided.";
     level := "error"; task_status := Some (status_value Failed) |}.

Definition completed_log (tid : value) : TaskLog :=
  {| task_id := tid; message := "Image generation and upload to IPFS completed.";
     level := "info"; task_status := Some (status_value Completed) |}.

Definition failure_log (tid : value) (e : exn) : TaskLog :=
  {| task_id := tid; message := "Error during image generation: " ++ exn_str e;
     level := "error"; task_status := Some (status_value Failed) |}.

(** The condition of line 66 on a string. *)
Definition braced (s : string) : bool := startswith s "{" && endswith s "}".

(** [f"{k}: {v}"] *)
Definition render_item (py : Runtime) (kv : string * value) : string :=
  fst kv ++ ": " ++ str py (snd kv).

(** Lines 62-76 of [run], from [input_query] to [character_prompt]: a string
    in braces is decoded and its items rendered one per line, [None] standing
    for a text on which [json.loads] raises [JSONDecodeError]; any other
    exception of [json.loads] is not caught and leaves [run]; anything that is
    not a string in braces is kept as it is.  [.items()] on a decoded value
    that is not a dict would raise [AttributeError] ([brace_loads]: this does
    not happen); the last case stands for the model's decoder running out of
    fuel, which does not happen either ([loads_never_exhausted]). *)
Definition character_prompt_of (py : Runtime) (input_query : value) : result value :=
  match input_query with
  | VStr s =>
      if braced s then
        match Json.loads py s with
        | Json.Decoded (VDict character_prompt_dict) =>
            Ok (VStr (join newline (map (render_item py) character_prompt_dict)))
        | Json.Decoded v =>
            Raise (mkExn "AttributeError"
                     (String squote (type_name v)
                        ++ String squote " object has no attribute 'items'"))
        | Json.JSONDecodeError _ => Ok VNone
        | Json.Raises e => Raise e
        | Json.Exhausted => Raise (mkExn "RecursionError" EmptyString)
        end
      else Ok input_query
  | _ => Ok input_query
  end.

(** The [step] argument of the [update_step] call. *)
Definition completed_step (sid tid : value) (ipfs_url : string) : dict :=
  [ ("step_id", sid);
    ("task_id", tid);
    ("step_status", VStr (status_value Completed));
    ("output", VStr "Image generated and uploaded to IPFS");
    ("is_last", VBool true);
    ("output_artifacts", VList [VStr ipfs_url]) ].

Section Run.
Context {Image : Type} (py : Runtime) (w : World Image).

Definition call_get_step (sid : value) : M Image dict :=
  call (GetStep sid) (get_step w sid).

Definition call_log_task (entry : TaskLog) : M Image unit :=
  call (LogTask entry) (log_task w entry).

Definition call_generate_image (character : value) : M Image Image :=
  call (GenerateImage character) (ImageGenerator.generate_image w character).

Definition call_upload (image : Image) (filename : string) : M Image string :=
  call (Upload image filename) (IPFSHelper.upload_image_and_get_url w image filename).

Definition call_update_step (did tid sid : value) (step : dict) : M Image unit :=
  call (UpdateStep did tid sid step) (update_step w did tid sid step).

(** Lines 90-119: the body of the [try]. *)
Definition generate_and_report (data step : dict) (character_prompt : value)
  : M Image unit :=
  image <- call_generate_image character_prompt ;;
  file_tid <- lift (getitem data "task_id") ;;
  ipfs_url <- call_upload image (str py file_tid ++ ".png") ;;
  did <- lift (getitem data "did") ;;
  tid <- lift (getitem data "task_id") ;;
  sid <- lift (getitem data "step_id") ;;
  sid' <- lift (getitem data "step_id") ;;
  tid' <- lift (getitem data "task_id") ;;
  _ <- call_update_step did tid sid (completed_step sid' tid' ipfs_url) ;;
  log_tid <- lift (getitem step "task_id") ;;
  call_log_task (completed_log log_tid).

(** Lines 121-131: the handler of [except Exception as e]. *)
Definition report_failure (step : dict) (e : exn) : M Image unit :=
  log_tid <- lift (getitem step "task_id") ;;
  call_log_task (failure_log log_tid e).

(** [ImageGeneratorAgent.run(data)], with the print of line 78 between the
    lines that compute the description and the test made on it. *)
Definition run (data : dict) : M Image unit :=
  sid <- lift (getitem data "step_id") ;;
  step <- call_get_step sid ;;
  status <- lift (getitem step "step_status") ;;
  if differs_from status (status_value Pending) then ret tt
  else
    tid <- lift (getitem step "task_id") ;;
    _ <- call_log_task (start_log tid) ;;
    let input_query := dict_get_default step "input_query" (VStr EmptyString) in
    character_prompt <- lift (character_prompt_of py input_query) ;;
    _ <- lift (print character_prompt) ;;
    if negb (truthy py character_prompt) then
      tid' <- lift (getitem step "task_id") ;;
      call_log_task (no_data_log tid')
    else
      try_except (generate_and_report data step character_prompt)
                 (report_failure step).

End Run.

(** *** Reading a trace *)

Section Trace.
Context {Image : Type}.

Definition log_calls (t : list (event Image)) : list TaskLog :=
  flat_map (fun ev => match ev with LogTask l => [l] | _ => [] end) t.

Definition error_logs (t : list (event Image)) : list TaskLog :=
  filter (fun l => String.eqb (level l) "error") (log_calls t).

Definition update_calls (t : list (event Image)) : list (value * value * value * dict) :=
  flat_map (fun ev => match ev with
                      | UpdateStep d ti si st => [(d, ti, si, st)]
                      | _ => []
                      end) t.

Definition generate_calls (t : list (event Image)) : list value :=
  flat_map (fun ev => match ev with GenerateImage c => [c] | _ => [] end) t.

Definition upload_calls (t : list (event Image)) : list (Image * string) :=
  flat_map (fun ev => match ev with Upload i f => [(i, f)] | _ => [] end) t.

(** An update that reports completion and carries at least one artifact. *)
Definition is_completion (u : value * value * value * dict) : bool :=
  let '(_, _, _, st) := u in
  match dict_get st "step_status", dict_get st "output_artifacts" with
  | Some (VStr status), Some (VList (_ :: _)) =>
      String.eqb status (status_value Completed)
  | _, _ => false
  end.





End Trace.

End Agent.

(** ** Notions that only the specification has

    The specification speaks of the trimmed form of a payload and of
    re-parsing the rendered lines; the source has neither.  They are written
    here from the specification's words, to be compared with the code. *)

Module Spec.
Import Py Agent.

(** ASCII whitespace, as [str.strip] removes it. *)
Definition is_space (c : ascii) : bool :=
  let n := nat_of_ascii c in
  (n =? 32)%nat || ((9 <=? n)%nat && (n <=? 13)%nat) || ((28 <=? n)%nat && (n <=? 31)%nat).

Fixpoint lstrip (s : string) : string :=
  match s with
  | String c s' => if is_space c then lstrip s' else s
  | EmptyString => EmptyString
  end.

Fixpoint rstrip (s : string) : string :=
  match s with
  | String c s' =>
      match rstrip s' with
      | EmptyString => if is_space c then EmptyString else String c EmptyString
      | kept => String c kept
      end
  | EmptyString => EmptyString
  end.

(** The trimmed form of a payload. *)
Definition trimmed (s : string) : string := rstrip (lstrip s).

(** The classification as the specification words it: the trimmed form
    starts with an opening brace and ends with a closing one. *)
Definition trimmed_braced (s : string) : bool := braced (trimmed s).

(** The lines of a text: [text.split(newline)]. *)
Fixpoint split_lines (s : string) : list string :=
  match s with
  | EmptyString => [EmptyString]
  | String c s' =>
      if Ascii.eqb c LF then EmptyString :: split_lines s'
      else
        match split_lines s' with
        | line :: lines => String c line :: lines
        | [] => [String c EmptyString]
        end
  end.

(** A rendered line read back: the key is what comes before the first colon
    followed by a space, the value what comes after it. *)
Fixpoint split_item (line : string) : option (string * string) :=
  match line with
  | EmptyString => None
  | String c rest =>
      if startswith line ": " then Some (EmptyString, drop 2 line)
      else
        match split_item rest with
        | Some (k, v) => Some (String c k, v)
        | None => None
        end
  end.

Fixpoint read_items (lines : list string) : option (list (string * string)) :=
  match lines with
  | [] => Some []
  | line :: lines' =>
      match split_item line, read_items lines' with
      | Some kv, Some kvs => Some (kv :: kvs)
      | _, _ => None
      end
  end.

(** Re-parsing a description: the empty description has no entry, any other
    has one entry per line. *)
Definition reparse (description : string) : option (list (string * string)) :=
  match description with
  | EmptyString => Some []
  | _ => read_items (split_lines description)
  end.

(** The entries a description stands for: each key with its value as text. *)
Definition entries (py : Runtime) (d : dict) : list (string * string) :=
  map (fun kv => (fst kv, str py (snd kv))) d.

(** [sub] occurs in [s]. *)
Fixpoint occurs (sub s : string) : bool :=
  startswith s sub
  || match s with
     | String _ s' => occurs sub s'
     | EmptyString => false
     end.

(** The text of a flat object whose keys and values are plain strings, as
    [json.dumps] writes it: members separated by a comma and a space, key and
    value by a colon and a space.  A plain string holds no quote, no
    backslash and no control character, so it is written as it is. *)
Definition plain_char (c : ascii) : bool :=
  (32 <=? nat_of_ascii c)%nat && negb (Ascii.eqb c dquote) && negb (Ascii.eqb c "\").

Fixpoint plain (s : string) : bool :=
  match s with
  | String c s' => plain_char c && plain s'
  | EmptyString => true
  end.

Definition quoted (s : string) : string := String dquote (s ++ String dquote EmptyString).

Definition member_text (kv : string * string) : string :=
  quoted (fst kv) ++ ": " ++ quoted (snd kv).

Definition object_text (members : list (string * string)) : string :=
  "{" ++ join ", " (map member_text members) ++ "}".

(** The object such a text stands for. *)
Definition flat_object (members : list (string * string)) : dict :=
  map (fun kv => (fst kv, VStr (snd kv))) members.

(** The same text cut the way the decoder reads it: a member after its opening
    quote, and what follows a member. *)
Definition member_body (kv : string * string) : string :=
  fst kv ++ String dquote (": " ++ String dquote (snd kv ++ String dquote EmptyString)).

Fixpoint members_tail (members : list (string * string)) (rest : string) : string :=
  match members with
  | [] => "}" ++ rest
  | kv :: more => ", " ++ String dquote (member_body kv ++ members_tail more rest)
  end.

(** The assignment the decoder makes for a member. *)
Definition set_member (acc : dict) (kv : string * string) : dict :=
  dict_set acc (fst kv) (VStr (snd kv)).




End Spec.

(** ** Concrete collaborators for the examples *)

Module Examples.
Import Py Env Agent.

(** JSON texts are written with single quotes and turned into the real text
    here. *)
Fixpoint json_text (s : string) : string :=
  match s with
  | String c s' => String (if Ascii.eqb c squote then dquote else c) (json_text s')
  | EmptyString => EmptyString
  end.

(** A runtime for examples that hold neither floats nor nested containers,
    with CPython's default limit on the digits of an integer and room for 900
    containers below the first. *)
Definition plain_runtime : Runtime :=
  {| float_str := fun lexeme => lexeme;
     float_bool := fun _ => true;
     container_str := fun _ => EmptyString;
     int_max_str_digits := 4300;
     nesting_room := 900 |}.

Definition generation_error : exn := mkExn "GenerationError" "out of memory".

Definition demo_data : dict :=
  [("step_id", VStr "step-1"); ("task_id", VStr "task-1"); ("did", VStr "did:nv:agent")].

Definition demo_step (status : string) (input_query : option value) : dict :=
  ([("step_id", VStr "step-1"); ("task_id", VStr "task-1"); ("step_status", VStr status)]
   ++ match input_query with
      | Some v => [("input_query", v)]
      | None => []
      end)%list.

(** Images are the bytes of a file. *)
Definition demo_image : string := "PNG".

(** A world where every collaborator answers: the gateway serves [step], the
    pipeline gives one image and Pinata the content identifier cid123. *)
Definition healthy_world (step : dict) : World string :=
  {| get_step := fun _ => Ok step;
     log_task := fun _ => Ok tt;
     update_step := fun _ _ _ _ => Ok tt;
     device_is_cuda := false;
     pipe := fun _ => Ok [demo_image];
     image_save := fun _ _ => Ok tt;
     pin_file_to_ipfs := fun _ => Ok [("IpfsHash", VStr "cid123")];
     path_exists := fun _ => true;
     os_remove := fun _ => Ok tt |}.

(** The same world with one collaborator failing. *)
Definition with_pipe (w : World string) (f : pipe_call -> result (list string))
  : World string :=
  {| get_step := get_step w; log_task := log_task w; update_step := update_step w;
     device_is_cuda := device_is_cuda w; pipe := f; image_save := image_save w;
     pin_file_to_ipfs := pin_file_to_ipfs w; path_exists := path_exists w;
     os_remove := os_remove w |}.

Definition with_get_step (w : World string) (f : value -> result dict) : World string :=
  {| get_step := f; log_task := log_task w; update_step := update_step w;
     device_is_cuda := device_is_cuda w; pipe := pipe w; image_save := image_save w;
     pin_file_to_ipfs := pin_file_to_ipfs w; path_exists := path_exists w;
     os_remove := os_remove w |}.




Definition knight : value := VStr "a knight in silver armor".

Definition pending_knight : dict := demo_step "Pending" (Some knight).





(** The payload of the specification's example, and two payloads whose
    objects differ: one entry whose value holds a line feed (the escape
    backslash-n of JSON), and two entries. *)
Definition hair_and_eyes : string := json_text "{'hair': 'red', 'eyes': 'blue'}".
Definition one_entry_two_lines : string := json_text "{'a': 'x\ny: z'}".
Definition two_entries : string := json_text "{'a': 'x', 'y': 'z'}".

(** The example payload with a space before and after. *)
Definition padded_payload : string := " " ++ hair_and_eyes ++ " ".

(** A payload whose only value is the escape of a lone surrogate, U+D83D, the
    description it is rendered as, and the error of printing it. *)
Definition lone_surrogate_payload : string := json_text "{'a': '\ud83d'}".

Definition lone_surrogate_description : string := "a: " ++ Json.utf8 55357.

Definition pending_surrogate : dict :=
  demo_step "Pending" (Some (VStr lone_surrogate_payload)).

Definition surrogate_error : exn :=
  mkExn "UnicodeEncodeError"
    "'utf-8' codec can't encode character '\ud83d' in position 3: surrogates not allowed".

Fixpoint repeat_text (n : nat) (s : string) : string :=
  match n with
  | O => EmptyString
  | S n' => s ++ repeat_text n' s
  end.

(** Two payloads in braces that are not JSON: one holds an integer of 4301
    digits, the other opens a thousand arrays. *)
Definition long_integer_payload : string :=
  json_text "{'n': " ++ repeat_text 4301 "1" ++ " oops}".

Definition deep_payload : string :=
  json_text "{'a': " ++ repeat_text 1000 "[" ++ "}".

(** The pipeline runs out of memory. *)
Definition pipeline_down (step : dict) : World string :=
  with_pipe (healthy_world step) (fun _ => Raise generation_error).

End Examples.

(** ** [src/image_generator.py]: [ImageGenerator.__init__] *)

Module ImageGeneratorInit.
Import Py.

Inductive Device : Type := Cuda | Mps | Cpu.

Inductive Dtype : Type := Float16 | Float32.

(** What [__init__] asks of [torch] and [diffusers]: whether each accelerator
    is available, the loading of a checkpoint with a data type, the move of
    the pipeline to a device, and attention slicing. *)
Record Torch (Pipe : Type) : Type := {
  cuda_is_available : bool;
  mps_is_available : bool;
  from_single_file : string -> bool -> Dtype -> result Pipe;
  pipe_to : Pipe -> Device -> result unit;
  enable_attention_slicing : Pipe -> result unit
}.
Arguments cuda_is_available {Pipe} t.
Arguments mps_is_available {Pipe} t.
Arguments from_single_file {Pipe} t _ _ _.
Arguments pipe_to {Pipe} t _ _.
Arguments enable_attention_slicing {Pipe} t _.

(** The attributes [__init__] sets on the instance. *)
Record Generator (Pipe : Type) : Type := {
  device : Device;
  pipe_handle : Pipe
}.
Arguments device {Pipe} g.
Arguments pipe_handle {Pipe} g.

Definition checkpoint_path : string := "models/analogMadness_v70.safetensors".

(** [ImageGenerator.__init__]: the device is CUDA when available, else MPS
    when available, else the CPU; the checkpoint is loaded in half precision
    on CUDA and in single precision otherwise; the pipeline is moved to the
    device and attention slicing is enabled.  Any of the three calls may
    raise. *)
Definition init {Pipe : Type} (torch : Torch Pipe) : result (Generator Pipe) :=
  let dev :=
    if cuda_is_available torch then Cuda
    else if mps_is_available torch then Mps
    else Cpu in
  match from_single_file torch checkpoint_path true
          (match dev with Cuda => Float16 | _ => Float32 end) with
  | Raise e => Raise e
  | Ok p =>
      match pipe_to torch p dev with
      | Raise e => Raise e
      | Ok _ =>
          match enable_attention_slicing torch p with
          | Raise e => Raise e
          | Ok _ => Ok {| device := dev; pipe_handle := p |}
          end
      end
  end.

(** [self.device.type in ['cuda']], the test of [generate_image]. *)
Definition uses_autocast {Pipe : Type} (g : Generator Pipe) : bool :=
  match device g with
  | Cuda => true
  | _ => false
  end.

End ImageGeneratorInit.

(** ** Notions for the further properties *)

Module Reading.
Import Py Env Agent Spec.

(** The keys of a sequence of members in the order of their first
    occurrence; [seen] holds the keys met so far. *)
Fixpoint first_occurrences (seen keys : list string) : list string :=
  match keys with
  | [] => []
  | k :: keys' =>
      if existsb (String.eqb k) seen then first_occurrences seen keys'
      else k :: first_occurrences (k :: seen) keys'
  end.

(** The value of the last member with the key [k]. *)
Fixpoint last_value (members : list (string * string)) (k : string) : option string :=
  match members with
  | [] => None
  | (k', v) :: members' =>
      match last_value members' k with
      | Some later => Some later
      | None => if String.eqb k' k then Some v else None
      end
  end.

(** The settings [generate_image] passes to the pipeline besides the prompt
    and the autocast context. *)
Definition fixed_settings (c : pipe_call) : Prop :=
  guidance_scale c = 5%Z /\ num_inference_steps c = 50%Z
  /\ height c = 512%Z /\ width c = 512%Z /\ manual_seed c = 1%Z
  /\ negative_prompt c = ImageGenerator.create_negative_prompt.

(** [KeyError(k)] *)
Definition key_error (k : string) : exn := mkExn "KeyError" (key_repr k).

(** What [create_prompt] appends to the description. *)
Definition prompt_suffix : string :=
  " (cinematic lighting:1.1) dynamic angle, highest quality,  (movie poster pose), analog style, high-resolution, detailed, concept art".

Definition gateway_prefix : string := "https://gateway.pinata.cloud/ipfs/".

Definition is_string (v : value) : bool :=
  match v with
  | VStr _ => true
  | _ => false
  end.

Definition is_log {Image : Type} (ev : event Image) : bool :=
  match ev with
  | LogTask _ => true
  | _ => false
  end.

Definition is_get_step {Image : Type} (ev : event Image) : bool :=
  match ev with
  | GetStep _ => true
  | _ => false
  end.

End Reading.

(** ** More collaborators for the examples *)

Module MoreExamples.
Import Py Env Agent Examples.

Definition with_pin (w : World string) (f : string -> result dict) : World string :=
  {| get_step := get_step w; log_task := log_task w; update_step := update_step w;
     device_is_cuda := device_is_cuda w; pipe := pipe w; image_save := image_save w;
     pin_file_to_ipfs := f; path_exists := path_exists w;
     os_remove := os_remove w |}.


Definition with_image_save (w : World string) (f : string -> string -> result unit)
  : World string :=
  {| get_step := get_step w; log_task := log_task w; update_step := update_step w;
     device_is_cuda := device_is_cuda w; pipe := pipe w; image_save := f;
     pin_file_to_ipfs := pin_file_to_ipfs w; path_exists := path_exists w;
     os_remove := os_remove w |}.

Definition pinata_error : exn := mkExn "ConnectionError" "pinata unreachable".


(** Pinata cannot be reached. *)
Definition pinata_down : World string :=
  with_pin (healthy_world pending_knight) (fun _ => Raise pinata_error).

(** Pinata answers without a content identifier. *)
Definition pinata_refuses : World string :=
  with_pin (healthy_world pending_knight)
    (fun _ => Ok [("status", VInt 401); ("reason", VStr "Unauthorized")]).



(** Payloads that miss a key. *)
Definition data_without_task_id : dict :=
  [("step_id", VStr "step-1"); ("did", VStr "did:nv:agent")].

Definition data_without_did : dict :=
  [("step_id", VStr "step-1"); ("task_id", VStr "task-1")].

(** A step whose [input_query] is a JSON object rather than a text. *)
Definition object_input : value := VDict [("hair", VStr "red")].

(** A machine with Apple's accelerator only, on which everything loads. *)
Definition apple_torch : ImageGeneratorInit.Torch string :=
  {| ImageGeneratorInit.cuda_is_available := false;
     ImageGeneratorInit.mps_is_available := true;
     ImageGeneratorInit.from_single_file := fun path _ _ => Ok path;
     ImageGeneratorInit.pipe_to := fun _ _ => Ok tt;
     ImageGeneratorInit.enable_attention_slicing := fun _ => Ok tt |}.

(** A payload with a repeated key. *)
Definition hair_twice : list (string * string) :=
  [("hair", "red"); ("eyes", "blue"); ("hair", "black")].

End MoreExamples.

(** * Facts

    ** The decoder *)

Module JsonFacts.
Import Py Json.

Lemma scan_map_Scanned {A B} (f : A -> B) r b rest :
  scan_map f r = Scanned b rest -> exists a, r = Scanned a rest /\ b = f a.
Proof. destruct r; simpl; intros H; inversion H; subst; eauto. Qed.

Lemma scan_map_not_exhausted {A B} (f : A -> B) r :
  r <> OutOfFuel -> scan_map f r <> OutOfFuel.
Proof. destruct r; simpl; congruence. Qed.

Lemma skip_ws_length s : String.length (skip_ws s) <= String.length s.
Proof. induction s as [|c s IH]; simpl; [lia|]. destruct (is_ws c); simpl; lia. Qed.

Lemma drop_length n s : String.length (drop n s) = String.length s - n.
Proof. revert s; induction n as [|n IH]; intros [|c s]; simpl; try lia; apply IH. Qed.

Lemma startswith_length s p : startswith s p = true -> String.length p <= String.length s.
Proof.
  revert s; induction p as [|c p IH]; intros [|d s]; simpl; try lia; try discriminate.
  intros H. apply andb_true_iff in H as [_ H]. apply IH in H. lia.
Qed.

Lemma scanstring_shorter n : forall s pending a rest,
  String.length s <= n -> scanstring pending s = Scanned a rest ->
  String.length rest < String.length s.
Proof.
  induction n as [|n IH]; intros s pending a rest Hn H.
  - destruct s; simpl in *; [discriminate | lia].
  - destruct s as [|c s]; simpl in H; [discriminate|].
    simpl in Hn.
    destruct (Ascii.eqb c dquote).
    { inversion H; subst; simpl; lia. }
    destruct (Ascii.eqb c "\").
    + destruct s as [|e s]; [discriminate|].
      destruct (Ascii.eqb e "u").
      * destruct s as [|h1 [|h2 [|h3 [|h4 s]]]]; try discriminate.
        simpl in Hn.
        assert (Hrec : forall p b, scanstring p s = Scanned b rest ->
                                   String.length rest < String.length s)
          by (intros p b Hb; eapply IH; [|exact Hb]; lia).
        destruct (hex4 h1 h2 h3 h4) as [u|]; [|discriminate].
        destruct pending as [hi|].
        -- destruct (is_low_surrogate u); [|destruct (is_high_surrogate u)];
             apply scan_map_Scanned in H as (b & Hb & _); apply Hrec in Hb; simpl; lia.
        -- destruct (is_high_surrogate u).
           ++ apply Hrec in H; simpl; lia.
           ++ apply scan_map_Scanned in H as (b & Hb & _); apply Hrec in Hb; simpl; lia.
      * destruct (simple_escape e); [|discriminate].
        apply scan_map_Scanned in H as (b & Hb & _).
        eapply IH in Hb; simpl in *; lia.
    + destruct (nat_of_ascii c <? 32)%nat; [discriminate|].
      apply scan_map_Scanned in H as (b & Hb & _).
      eapply IH in Hb; simpl in *; lia.
Qed.

Lemma scanstring_not_exhausted n : forall s pending,
  String.length s <= n -> scanstring pending s <> OutOfFuel.
Proof.
  induction n as [|n IH]; intros s pending Hn.
  - destruct s; simpl in *; [discriminate | lia].
  - destruct s as [|c s]; simpl; [discriminate|]. simpl in Hn.
    destruct (Ascii.eqb c dquote); [discriminate|].
    destruct (Ascii.eqb c "\").
    + destruct s as [|e s]; [discriminate|].
      destruct (Ascii.eqb e "u").
      * destruct s as [|h1 [|h2 [|h3 [|h4 s]]]]; try discriminate.
        simpl in Hn.
        assert (Hrec : forall p, scanstring p s <> OutOfFuel) by (intros p; apply IH; lia).
        destruct (hex4 h1 h2 h3 h4) as [u|]; [|discriminate].
        destruct pending as [hi|].
        -- destruct (is_low_surrogate u); [|destruct (is_high_surrogate u)];
             apply scan_map_not_exhausted, Hrec.
        -- destruct (is_high_surrogate u); [apply Hrec | apply scan_map_not_exhausted, Hrec].
      * destruct (simple_escape e); [|discriminate].
        apply scan_map_not_exhausted, IH. simpl in Hn. lia.
    + destruct (nat_of_ascii c <? 32)%nat; [discriminate|].
      apply scan_map_not_exhausted, IH. lia.
Qed.

Lemma span_digits_length s : forall ds rest,
  span_digits s = (ds, rest) -> String.length rest <= String.length s.
Proof.
  induction s as [|c s IH]; simpl; intros ds rest H.
  - inversion H; simpl; lia.
  - destruct (is_digit c).
    + destruct (span_digits s) as [ds' rest'] eqn:E. inversion H; subst.
      specialize (IH _ _ eq_refl). lia.
    + inversion H; subst; simpl; lia.
Qed.


Lemma match_digits_shorter sign body lex rest :
  match_digits sign body = Some (lex, rest) -> String.length rest < String.length body.
Proof.
  destruct body as [|c b]; simpl; [discriminate|].
  destruct (Ascii.eqb c "0"); [intros H; inversion H; subst; lia|].
  destruct (is_digit c); [|discriminate].
  destruct (span_digits b) as [ds r] eqn:E. intros H; inversion H; subst.
  apply span_digits_length in E. lia.
Qed.

Lemma match_integer_shorter s lex rest :
  match_integer s = Some (lex, rest) -> String.length rest < String.length s.
Proof.
  destruct s as [|c s]; [discriminate|]. unfold match_integer.
  destruct (Ascii.eqb c "-"); intros H; apply match_digits_shorter in H; simpl in *; lia.
Qed.

Lemma match_frac_length s lex rest :
  match_frac s = (lex, rest) -> String.length rest <= String.length s.
Proof.
  destruct s as [|c s]; simpl; [intros H; inversion H; simpl; lia|].
  destruct (Ascii.eqb c ".").
  - destruct (span_digits s) as [[|d ds] r] eqn:E; intros H; inversion H; subst;
      simpl; try lia. apply span_digits_length in E. lia.
  - intros H; inversion H; simpl; lia.
Qed.

Lemma match_exp_length s lex rest :
  match_exp s = (lex, rest) -> String.length rest <= String.length s.
Proof.
  destruct s as [|e s]; simpl; [intros H; inversion H; simpl; lia|].
  destruct (Ascii.eqb e "e" || Ascii.eqb e "E"); [|intros H; inversion H; simpl; lia].
  destruct s as [|g s].
  - simpl. intros H; inversion H; simpl; lia.
  - destruct (Ascii.eqb g "+" || Ascii.eqb g "-").
    + destruct (span_digits s) as [[|d ds] r] eqn:E; intros H; inversion H; subst;
        simpl; try lia. apply span_digits_length in E. lia.
    + destruct (span_digits (String g s)) as [[|d ds] r] eqn:E; intros H; inversion H; subst;
        simpl; try lia. apply span_digits_length in E. simpl in E. lia.
Qed.

Lemma match_number_shorter py s v rest :
  match_number py s = Some (Scanned v rest) -> String.length rest < String.length s.
Proof.
  unfold match_number.
  destruct (match_integer s) as [[lex r]|] eqn:Ei; [|discriminate].
  apply match_integer_shorter in Ei.
  destruct (match_frac r) as [fr r1] eqn:Ef. apply match_frac_length in Ef.
  destruct (match_exp r1) as [ex r2] eqn:Ee. apply match_exp_length in Ee.
  destruct fr, ex; try destruct (parse_int py lex);
    intros H; inversion H; subst; lia.
Qed.

Lemma match_number_not_exhausted py s r :
  match_number py s = Some r -> r <> OutOfFuel.
Proof.
  unfold match_number.
  destruct (match_integer s) as [[lex r0]|]; [|discriminate].
  destruct (match_frac r0) as [fr r1]. destruct (match_exp r1) as [ex r2].
  destruct fr, ex; try destruct (parse_int py lex);
    intros H; inversion H; subst; discriminate.
Qed.

Lemma startswith_drop_shorter s p :
  startswith s p = true -> 0 < String.length p ->
  String.length (drop (String.length p) s) < String.length s.
Proof. intros H Hp. apply startswith_length in H. rewrite drop_length. lia. Qed.

(** The scanner never runs out of the fuel [loads] gives it. *)
Lemma scanner_fuel py : forall fuel,
  (forall depth s, 2 * String.length s < fuel ->
     scan_once py fuel depth s <> OutOfFuel /\
     forall v rest, scan_once py fuel depth s = Scanned v rest ->
       String.length rest < String.length s) /\
  (forall depth s acc, 2 * String.length s + 1 < fuel ->
     scan_pairs py fuel depth acc s <> OutOfFuel /\
     forall d rest, scan_pairs py fuel depth acc s = Scanned d rest ->
       String.length rest < String.length s) /\
  (forall depth s, 2 * String.length s + 1 < fuel ->
     scan_items py fuel depth s <> OutOfFuel /\
     forall l rest, scan_items py fuel depth s = Scanned l rest ->
       String.length rest < String.length s).
Proof.
  induction fuel as [|fuel (IHonce & IHpairs & IHitems)].
  { repeat split; intros; lia. }
  split; [|split].
  - (* scan_once *)
    intros depth s Hf.
    destruct s as [|c rest]; [simpl; split; [discriminate|intros; discriminate]|].
    cbn [scan_once]. simpl String.length in Hf.
    destruct (Ascii.eqb c dquote).
    { split.
      - apply scan_map_not_exhausted, (scanstring_not_exhausted _ _ _ (le_n _)).
      - intros v r H. apply scan_map_Scanned in H as (a & H & _).
        apply (scanstring_shorter _ _ _ _ _ (le_n _)) in H. simpl; lia. }
    destruct (Ascii.eqb c "{").
    { destruct depth as [|depth]; [split; [discriminate|intros; discriminate]|].
      pose proof (skip_ws_length rest) as Hws.
      destruct (skip_ws rest) as [|d rest1]; [split; [discriminate|intros; discriminate]|].
      simpl in Hws.
      destruct (Ascii.eqb d "}").
      { split; [discriminate|]. intros v r H; inversion H; subst. simpl; lia. }
      destruct (Ascii.eqb d dquote); [|split; [discriminate|intros; discriminate]].
      destruct (IHpairs depth rest1 []) as [Hne Hsh]; [lia|].
      split; [apply scan_map_not_exhausted, Hne|].
      intros v r H. apply scan_map_Scanned in H as (a & H & _).
      apply Hsh in H. simpl; lia. }
    destruct (Ascii.eqb c "[").
    { destruct depth as [|depth]; [split; [discriminate|intros; discriminate]|].
      pose proof (skip_ws_length rest) as Hws.
      destruct (skip_ws rest) as [|d rest1]; [split; [discriminate|intros; discriminate]|].
      destruct (Ascii.eqb d "]").
      { split; [discriminate|]. intros v r H; inversion H; subst. simpl in *; lia. }
      destruct (IHitems depth (String d rest1)) as [Hne Hsh]; [simpl in *; lia|].
      split; [apply scan_map_not_exhausted, Hne|].
      intros v r H. apply scan_map_Scanned in H as (a & H & _).
      apply Hsh in H. simpl in *; lia. }
    destruct (startswith (String c rest) "null") eqn:E1.
    { split; [discriminate|]. intros v r H; inversion H; subst.
      apply (startswith_drop_shorter _ "null" E1). simpl; lia. }
    destruct (startswith (String c rest) "true") eqn:E2.
    { split; [discriminate|]. intros v r H; inversion H; subst.
      apply (startswith_drop_shorter _ "true" E2). simpl; lia. }
    destruct (startswith (String c rest) "false") eqn:E3.
    { split; [discriminate|]. intros v r H; inversion H; subst.
      apply (startswith_drop_shorter _ "false" E3). simpl; lia. }
    destruct (match_number py (String c rest)) as [r0|] eqn:En.
    { split; [exact (match_number_not_exhausted _ _ _ En)|].
      intros v r H; subst r0. apply match_number_shorter in En. exact En. }
    destruct (startswith (String c rest) "NaN") eqn:E4.
    { split; [discriminate|]. intros v r H; inversion H; subst.
      apply (startswith_drop_shorter _ "NaN" E4). simpl; lia. }
    destruct (startswith (String c rest) "Infinity") eqn:E5.
    { split; [discriminate|]. intros v r H; inversion H; subst.
      apply (startswith_drop_shorter _ "Infinity" E5). simpl; lia. }
    destruct (startswith (String c rest) "-Infinity") eqn:E6.
    { split; [discriminate|]. intros v r H; inversion H; subst.
      apply (startswith_drop_shorter _ "-Infinity" E6). simpl; lia. }
    split; [discriminate|intros; discriminate].
  - (* scan_pairs *)
    intros depth s acc Hf. cbn [scan_pairs].
    destruct (scanstring None s) as [key rest| | |] eqn:Ek;
      [|split; [discriminate|intros; discriminate]
       |split; [discriminate|intros; discriminate]
       |exfalso; exact (scanstring_not_exhausted _ _ _ (le_n _) Ek)].
    apply (scanstring_shorter _ _ _ _ _ (le_n _)) in Ek.
    pose proof (skip_ws_length rest) as Hws.
    destruct (skip_ws rest) as [|colon rest1]; [split; [discriminate|intros; discriminate]|].
    simpl in Hws.
    destruct (Ascii.eqb colon ":"); [|split; [discriminate|intros; discriminate]].
    pose proof (skip_ws_length rest1) as Hws1.
    destruct (IHonce depth (skip_ws rest1)) as [Hne Hsh]; [lia|].
    destruct (scan_once py fuel depth (skip_ws rest1)) as [v rest2| | |] eqn:Ev;
      [|split; [discriminate|intros; discriminate]
       |split; [discriminate|intros; discriminate]|congruence].
    specialize (Hsh _ _ eq_refl).
    pose proof (skip_ws_length rest2) as Hws2.
    destruct (skip_ws rest2) as [|d rest3]; [split; [discriminate|intros; discriminate]|].
    simpl in Hws2.
    destruct (Ascii.eqb d "}").
    { split; [discriminate|]. intros d0 r H; inversion H; subst. lia. }
    destruct (Ascii.eqb d ","); [|split; [discriminate|intros; discriminate]].
    pose proof (skip_ws_length rest3) as Hws3.
    destruct (skip_ws rest3) as [|q rest4]; [split; [discriminate|intros; discriminate]|].
    simpl in Hws3.
    destruct (Ascii.eqb q dquote); [|split; [discriminate|intros; discriminate]].
    destruct (IHpairs depth rest4 (dict_set acc key v)) as [Hne' Hsh']; [lia|].
    split; [exact Hne'|]. intros d0 r H. apply Hsh' in H. lia.
  - (* scan_items *)
    intros depth s Hf. cbn [scan_items].
    destruct (IHonce depth s) as [Hne Hsh]; [lia|].
    destruct (scan_once py fuel depth s) as [v rest| | |] eqn:Ev;
      [|split; [discriminate|intros; discriminate]
       |split; [discriminate|intros; discriminate]|congruence].
    specialize (Hsh _ _ eq_refl).
    pose proof (skip_ws_length rest) as Hws.
    destruct (skip_ws rest) as [|d rest1]; [split; [discriminate|intros; discriminate]|].
    simpl in Hws.
    destruct (Ascii.eqb d "]").
    { split; [discriminate|]. intros l r H; inversion H; subst. lia. }
    destruct (Ascii.eqb d ","); [|split; [discriminate|intros; discriminate]].
    pose proof (skip_ws_length rest1) as Hws1.
    destruct (IHitems depth (skip_ws rest1)) as [Hne' Hsh']; [lia|].
    split; [apply scan_map_not_exhausted, Hne'|].
    intros l r H. apply scan_map_Scanned in H as (a & H & _). apply Hsh' in H. lia.
Qed.

Theorem loads_never_exhausted py s : loads py s <> Exhausted.
Proof.
  unfold loads.
  pose proof (skip_ws_length s) as Hws.
  destruct (scanner_fuel py (S (2 * String.length s))) as (Honce & _ & _).
  destruct (Honce (S (nesting_room py)) (skip_ws s)) as [Hne _]; [lia|].
  destruct (scan_once py (S (2 * String.length s)) (S (nesting_room py)) (skip_ws s))
    as [v rest| | |];
    [destruct (skip_ws rest); discriminate | discriminate | discriminate | congruence].
Qed.

Lemma scan_map_Raised {A B} (f : A -> B) r e :
  scan_map f r = Raised e -> r = Raised e.
Proof. destruct r; simpl; intros H; inversion H; subst; reflexivity. Qed.

Lemma scanstring_not_raised n : forall s pending e,
  String.length s <= n -> scanstring pending s <> Raised e.
Proof.
  induction n as [|n IH]; intros s pending e Hn.
  - destruct s; simpl in *; [discriminate | lia].
  - destruct s as [|c s]; simpl; [discriminate|]. simpl in Hn.
    destruct (Ascii.eqb c dquote); [discriminate|].
    destruct (Ascii.eqb c "\").
    + destruct s as [|x s]; [discriminate|].
      destruct (Ascii.eqb x "u").
      * destruct s as [|h1 [|h2 [|h3 [|h4 s]]]]; try discriminate.
        simpl in Hn.
        assert (Hrec : forall p, scanstring p s <> Raised e) by (intros p; apply IH; lia).
        destruct (hex4 h1 h2 h3 h4) as [u|]; [|discriminate].
        destruct pending as [hi|].
        -- destruct (is_low_surrogate u); [|destruct (is_high_surrogate u)];
             intros H; apply scan_map_Raised in H; exact (Hrec _ H).
        -- destruct (is_high_surrogate u); [apply Hrec|].
           intros H; apply scan_map_Raised in H; exact (Hrec _ H).
      * destruct (simple_escape x); [|discriminate].
        intros H; apply scan_map_Raised in H. revert H. apply IH. simpl in Hn. lia.
    + destruct (nat_of_ascii c <? 32)%nat; [discriminate|].
      intros H; apply scan_map_Raised in H. revert H. apply IH. lia.
Qed.

Lemma match_number_raised py s e :
  match_number py s = Some (Raised e) -> exn_class e = "ValueError".
Proof.
  unfold match_number, parse_int.
  destruct (match_integer s) as [[lex r0]|]; [|discriminate].
  destruct (match_frac r0) as [fr r1]. destruct (match_exp r1) as [ex r2].
  destruct fr, ex; try discriminate.
  destruct (_ && _); intros H; inversion H; reflexivity.
Qed.

(** What the scanner raises is one of the two. *)
Lemma scanner_raises py : forall fuel,
  (forall depth s e, scan_once py fuel depth s = Raised e -> limit_error e) /\
  (forall depth s acc e, scan_pairs py fuel depth acc s = Raised e -> limit_error e) /\
  (forall depth s e, scan_items py fuel depth s = Raised e -> limit_error e).
Proof.
  induction fuel as [|fuel (IHonce & IHpairs & IHitems)].
  { repeat split; intros; discriminate. }
  split; [|split].
  - intros depth s e. destruct s as [|c rest]; [discriminate|].
    cbn [scan_once].
    destruct (Ascii.eqb c dquote).
    { intros H. apply scan_map_Raised in H.
      exfalso. exact (scanstring_not_raised _ _ _ _ (le_n _) H). }
    destruct (Ascii.eqb c "{").
    { destruct depth as [|depth]; [intros [= <-]; right; reflexivity|].
      destruct (skip_ws rest) as [|d rest1]; [discriminate|].
      destruct (Ascii.eqb d "}"); [discriminate|].
      destruct (Ascii.eqb d dquote); [|discriminate].
      intros H. apply scan_map_Raised in H. exact (IHpairs _ _ _ _ H). }
    destruct (Ascii.eqb c "[").
    { destruct depth as [|depth]; [intros [= <-]; right; reflexivity|].
      destruct (skip_ws rest) as [|d rest1]; [discriminate|].
      destruct (Ascii.eqb d "]"); [discriminate|].
      intros H. apply scan_map_Raised in H. exact (IHitems _ _ _ H). }
    destruct (startswith (String c rest) "null"); [discriminate|].
    destruct (startswith (String c rest) "true"); [discriminate|].
    destruct (startswith (String c rest) "false"); [discriminate|].
    destruct (match_number py (String c rest)) as [r0|] eqn:En.
    { intros ->. left. exact (match_number_raised _ _ _ En). }
    destruct (startswith (String c rest) "NaN"); [discriminate|].
    destruct (startswith (String c rest) "Infinity"); [discriminate|].
    destruct (startswith (String c rest) "-Infinity"); discriminate.
  - intros depth s acc e. cbn [scan_pairs].
    destruct (scanstring None s) as [key rest| | |] eqn:Ek; try discriminate;
      [|intros _; exfalso; exact (scanstring_not_raised _ _ _ _ (le_n _) Ek)].
    destruct (skip_ws rest) as [|colon rest1]; [discriminate|].
    destruct (Ascii.eqb colon ":"); [|discriminate].
    destruct (scan_once py fuel depth (skip_ws rest1)) as [v rest2| | |] eqn:Ev;
      try discriminate; [|intros [= <-]; exact (IHonce _ _ _ Ev)].
    destruct (skip_ws rest2) as [|d rest3]; [discriminate|].
    destruct (Ascii.eqb d "}"); [discriminate|].
    destruct (Ascii.eqb d ","); [|discriminate].
    destruct (skip_ws rest3) as [|q rest4]; [discriminate|].
    destruct (Ascii.eqb q dquote); [|discriminate].
    apply IHpairs.
  - intros depth s e. cbn [scan_items].
    destruct (scan_once py fuel depth s) as [v rest| | |] eqn:Ev;
      try discriminate; [|intros [= <-]; exact (IHonce _ _ _ Ev)].
    destruct (skip_ws rest) as [|d rest1]; [discriminate|].
    destruct (Ascii.eqb d "]"); [discriminate|].
    destruct (Ascii.eqb d ","); [|discriminate].
    intros H. apply scan_map_Raised in H. exact (IHitems _ _ _ H).
Qed.

(** [json.loads] raises, besides [JSONDecodeError], only [ValueError] and
    [RecursionError]. *)
Lemma loads_raises py s e : loads py s = Raises e -> limit_error e.
Proof.
  unfold loads.
  destruct (scan_once py _ _ (skip_ws s)) as [v rest| | |] eqn:Hs; try discriminate.
  - destruct (skip_ws rest); discriminate.
  - intros [= <-].
    exact (proj1 (scanner_raises py _) _ _ _ Hs).
Qed.

End JsonFacts.

(** ** Strings *)

Module StringFacts.
Import Py Agent Spec.

Lemma length_app a b : String.length (a ++ b) = String.length a + String.length b.
Proof. induction a as [|c a IH]; simpl; [reflexivity | rewrite IH; reflexivity]. Qed.

Lemma drop_app_length a b : drop (String.length a) (a ++ b) = b.
Proof. induction a as [|c a IH]; simpl; auto. Qed.

Lemma drop_splits n s : exists front, s = front ++ drop n s.
Proof.
  revert s; induction n as [|n IH]; intros s.
  - exists EmptyString. reflexivity.
  - destruct s as [|c s]; simpl.
    + exists EmptyString. reflexivity.
    + destruct (IH s) as [front Hf]. exists (String c front). simpl. congruence.
Qed.

Lemma startswith_char s c :
  startswith s (String c EmptyString) = true <-> exists rest, s = String c rest.
Proof.
  split.
  - destruct s as [|d rest]; simpl; [discriminate|].
    rewrite andb_true_r. intros H. apply Ascii.eqb_eq in H. subst. eauto.
  - intros [rest ->]. simpl. rewrite Ascii.eqb_refl. reflexivity.
Qed.

Lemma endswith_char s c :
  endswith s (String c EmptyString) = true <-> exists front, s = front ++ String c EmptyString.
Proof.
  unfold endswith. split.
  - intros H. apply andb_true_iff in H as [_ H]. apply String.eqb_eq in H.
    destruct (drop_splits (String.length s - String.length (String c "")) s) as [front Hf].
    exists front. rewrite H in Hf. exact Hf.
  - intros [front ->]. rewrite length_app. simpl String.length.
    apply andb_true_iff. split.
    + apply Nat.leb_le. lia.
    + replace (String.length front + 1 - 1) with (String.length front) by lia.
      rewrite drop_app_length. apply String.eqb_refl.
Qed.

(** The condition of line 66, spelled out. *)
Lemma braced_spec s :
  braced s = true <->
  (exists rest, s = String "{" rest) /\ (exists front, s = front ++ "}").
Proof.
  unfold braced. rewrite andb_true_iff, startswith_char, endswith_char. reflexivity.
Qed.

Lemma occurs_newline_cons c s :
  occurs newline (String c s) = Ascii.eqb c LF || occurs newline s.
Proof. simpl. rewrite andb_true_r. reflexivity. Qed.

Lemma occurs_newline_app a b :
  occurs newline (a ++ b) = occurs newline a || occurs newline b.
Proof.
  induction a as [|c a IH].
  - simpl. destruct (occurs newline b); reflexivity.
  - change (String c a ++ b) with (String c (a ++ b)).
    rewrite !occurs_newline_cons, IH. apply orb_assoc.
Qed.

Lemma split_lines_not_nil s : split_lines s <> [].
Proof.
  destruct s as [|c s]; simpl; [discriminate|].
  destruct (Ascii.eqb c LF); [discriminate|].
  destruct (split_lines s); discriminate.
Qed.

Lemma split_lines_line s : occurs newline s = false -> split_lines s = [s].
Proof.
  induction s as [|c s IH]; [reflexivity|].
  rewrite occurs_newline_cons. intros H. apply orb_false_iff in H as [Hc Hs].
  simpl. rewrite Hc, (IH Hs). reflexivity.
Qed.

Lemma split_lines_app line rest :
  occurs newline line = false ->
  split_lines (line ++ newline ++ rest) = line :: split_lines rest.
Proof.
  induction line as [|c line IH].
  - intros _. reflexivity.
  - rewrite occurs_newline_cons. intros H. apply orb_false_iff in H as [Hc Hs].
    change (String c line ++ newline ++ rest) with (String c (line ++ newline ++ rest)).
    cbn [split_lines]. rewrite Hc, (IH Hs). reflexivity.
Qed.

Lemma join_cons sep x y rest :
  join sep (x :: y :: rest) = x ++ sep ++ join sep (y :: rest).
Proof. reflexivity. Qed.

(** Joining lines that hold no newline and splitting the text gives the
    lines back. *)
Lemma split_lines_join lines :
  lines <> [] ->
  (forall line, In line lines -> occurs newline line = false) ->
  split_lines (join newline lines) = lines.
Proof.
  induction lines as [|x [|y rest] IH]; intros Hne Hall.
  - contradiction.
  - simpl. apply split_lines_line, Hall. left; reflexivity.
  - rewrite join_cons, split_lines_app by (apply Hall; left; reflexivity).
    f_equal. apply IH; [discriminate|]. intros line Hin. apply Hall. right; exact Hin.
Qed.

(** A rendered line whose key holds no colon followed by a space reads back
    as its key and its value. *)
Lemma split_item_render k v :
  occurs ": " k = false -> split_item (k ++ ": " ++ v) = Some (k, v).
Proof.
  induction k as [|c k IH]; intros H.
  - reflexivity.
  - cbn [occurs] in H. apply orb_false_iff in H as [Hhere Hrest].
    change (String c k ++ ": " ++ v) with (String c (k ++ ": " ++ v)).
    cbn [split_item].
    assert (Hs : startswith (String c (k ++ ": " ++ v)) ": " = false).
    { cbn [startswith] in *. destruct (Ascii.eqb c ":"); [|reflexivity].
      destruct k as [|c2 k]; [reflexivity|].
      cbn [append startswith] in *. rewrite andb_true_r in *. exact Hhere. }
    rewrite Hs, (IH Hrest). reflexivity.
Qed.

End StringFacts.

(** ** Rendered lines read back *)

Module RenderFacts.
Import Py Agent Spec StringFacts.

Lemma entries_render py d :
  (forall k v, In (k, v) d -> occurs ": " k = false) ->
  read_items (map (render_item py) d) = Some (entries py d).
Proof.
  induction d as [|[k v] d IH]; intros Hkeys; [reflexivity|].
  cbn [map read_items entries]. unfold render_item at 1. cbn [fst snd].
  rewrite split_item_render by (apply (Hkeys k v); left; reflexivity).
  fold (entries py d).
  rewrite IH by (intros k' v' Hin; apply (Hkeys k' v'); right; exact Hin).
  reflexivity.
Qed.

(** The lines rendered from a dict read back as its entries, when no key
    holds a line feed or a colon followed by a space and no value, as text,
    holds a line feed. *)
Lemma reparse_rendered py d :
  (forall k v, In (k, v) d ->
     occurs ": " k = false
     /\ occurs newline k = false
     /\ occurs newline (str py v) = false) ->
  reparse (join newline (map (render_item py) d)) = Some (entries py d).
Proof.
  intros Hclean. destruct d as [|[k v] d]; [reflexivity|].
  assert (Hlines : split_lines (join newline (map (render_item py) ((k, v) :: d)))
                   = map (render_item py) ((k, v) :: d)).
  { apply split_lines_join; [discriminate|].
    intros line Hin. apply in_map_iff in Hin as ([k' v'] & <- & Hin).
    destruct (Hclean k' v' Hin) as (_ & Hk & Hv).
    unfold render_item. cbn [fst snd].
    rewrite !occurs_newline_app, Hk, Hv. reflexivity. }
  unfold reparse. rewrite Hlines.
  rewrite entries_render by (intros k' v' Hin; apply (Hclean k' v' Hin)).
  destruct (join newline (map (render_item py) ((k, v) :: d))) eqn:Hj;
    [|reflexivity].
  exfalso. revert Hj. cbn [map]. unfold render_item at 1. cbn [fst snd].
  destruct (map (render_item py) d), k; discriminate.
Qed.

End RenderFacts.

(** ** Decoding the text of a flat object *)

Module FlatObjectFacts.
Import Py Json Agent Spec JsonFacts StringFacts RenderFacts.

Lemma append_assoc a b c : (a ++ b) ++ c = a ++ b ++ c.
Proof. induction a as [|x a IH]; simpl; [reflexivity | rewrite IH; reflexivity]. Qed.

Lemma plain_char_facts c :
  plain_char c = true ->
  Ascii.eqb c dquote = false /\ Ascii.eqb c "\" = false
  /\ (nat_of_ascii c <? 32)%nat = false.
Proof.
  unfold plain_char. intros H.
  apply andb_true_iff in H as [H Hb]. apply andb_true_iff in H as [Hn Hq].
  apply negb_true_iff in Hb, Hq. apply Nat.leb_le in Hn.
  repeat split; try assumption. apply Nat.ltb_ge. exact Hn.
Qed.

(** A plain string is read up to its closing quote as it is. *)
Lemma scanstring_plain s rest :
  plain s = true -> scanstring None (s ++ String dquote rest) = Scanned s rest.
Proof.
  induction s as [|c s IH]; intros Hp.
  - reflexivity.
  - cbn [plain] in Hp. apply andb_true_iff in Hp as [Hc Hs].
    destruct (plain_char_facts c Hc) as (Hq & Hb & Hn).
    change (String c s ++ String dquote rest) with (String c (s ++ String dquote rest)).
    cbn [scanstring]. rewrite Hq, Hb, Hn, (IH Hs). reflexivity.
Qed.

Lemma plain_no_newline s : plain s = true -> occurs newline s = false.
Proof.
  induction s as [|c s IH]; intros Hp; [reflexivity|].
  cbn [plain] in Hp. apply andb_true_iff in Hp as [Hc Hs].
  rewrite occurs_newline_cons, (IH Hs), orb_false_r.
  destruct (plain_char_facts c Hc) as (_ & _ & Hn).
  destruct (Ascii.eqb_spec c LF) as [->|]; [discriminate Hn | reflexivity].
Qed.

Lemma member_text_body kv : member_text kv = String dquote (member_body kv).
Proof.
  unfold member_text, member_body, quoted. cbn [append]. f_equal.
  rewrite append_assoc. reflexivity.
Qed.

Lemma join_members kv more rest :
  join ", " (map member_text (kv :: more)) ++ "}" ++ rest
  = String dquote (member_body kv ++ members_tail more rest).
Proof.
  revert kv; induction more as [|kv' more IH]; intros kv.
  - cbn [map join members_tail]. rewrite member_text_body. reflexivity.
  - cbn [map] in *. rewrite join_cons, !append_assoc, IH.
    rewrite member_text_body. reflexivity.
Qed.

Lemma is_ws_dquote : is_ws dquote = false.
Proof. reflexivity. Qed.

(** One member is read, up to the delimiter that follows it. *)
Lemma scan_pairs_member py k v acc fuel depth tail :
  plain k = true -> plain v = true ->
  scan_pairs py (S (S fuel)) depth acc (member_body (k, v) ++ tail)
  = match skip_ws tail with
    | String d rest3 =>
        if Ascii.eqb d "}" then Scanned (dict_set acc k (VStr v)) rest3
        else if Ascii.eqb d "," then
          match skip_ws rest3 with
          | String q rest4 =>
              if Ascii.eqb q dquote
              then scan_pairs py (S fuel) depth (dict_set acc k (VStr v)) rest4
              else DecodeError "Expecting property name enclosed in double quotes"
          | EmptyString =>
              DecodeError "Expecting property name enclosed in double quotes"
          end
        else DecodeError "Expecting ',' delimiter"
    | EmptyString => DecodeError "Expecting ',' delimiter"
    end.
Proof.
  intros Hk Hv. unfold member_body. cbn [fst snd].
  rewrite append_assoc. cbn [append].
  cbn [scan_pairs]. rewrite (scanstring_plain k _ Hk).
  cbn [skip_ws]. change (is_ws ":") with false. cbv iota.
  change (Ascii.eqb ":" ":") with true. cbv iota.
  cbn [skip_ws]. change (is_ws " ") with true. cbv iota.
  cbn [skip_ws]. rewrite is_ws_dquote.
  cbn [scan_once]. rewrite Ascii.eqb_refl.
  rewrite append_assoc. cbn [append].
  rewrite (scanstring_plain v _ Hv). cbn [scan_map]. reflexivity.
Qed.

(** The members are read one by one into the dict. *)
Lemma scan_pairs_members py depth more : forall kv acc fuel rest,
  Forall (fun kv => plain (fst kv) = true /\ plain (snd kv) = true) (kv :: more) ->
  length more + 1 < fuel ->
  scan_pairs py fuel depth acc (member_body kv ++ members_tail more rest)
  = Scanned (fold_left set_member (kv :: more) acc) rest.
Proof.
  induction more as [|kv' more IH]; intros [k v] acc fuel rest Hplain Hfuel;
    inversion Hplain as [|? ? [Hk Hv] Hmore]; subst; cbn [fst snd] in *;
    (destruct fuel as [|[|fuel]]; [cbn [length] in Hfuel; lia .. |]);
    rewrite (scan_pairs_member py k v acc fuel depth _ Hk Hv).
  - reflexivity.
  - cbn [members_tail append skip_ws].
    change (is_ws ",") with false. cbv iota.
    change (Ascii.eqb "," "}") with false. change (Ascii.eqb "," ",") with true.
    cbv iota. cbn [skip_ws]. change (is_ws " ") with true. cbv iota.
    cbn [skip_ws]. rewrite is_ws_dquote, Ascii.eqb_refl.
    rewrite (IH kv' _ (S fuel) rest Hmore) by (cbn [length] in Hfuel; lia).
    reflexivity.
Qed.

Lemma dict_get_app_fresh acc k k' v :
  dict_get acc k = None -> String.eqb k' k = false ->
  dict_get (acc ++ [(k', v)])%list k = None.
Proof.
  induction acc as [|[k0 v0] acc IH]; cbn [dict_get app]; intros Hget Hne.
  - rewrite Hne. reflexivity.
  - destruct (String.eqb k0 k); [discriminate | auto].
Qed.

Lemma dict_set_fresh acc k v :
  dict_get acc k = None -> dict_set acc k v = (acc ++ [(k, v)])%list.
Proof.
  induction acc as [|[k0 v0] acc IH]; cbn [dict_get dict_set app]; intros Hget.
  - reflexivity.
  - destruct (String.eqb k0 k); [discriminate|]. rewrite (IH Hget). reflexivity.
Qed.

(** Members with distinct keys, none of them in the dict yet, are appended. *)
Lemma fold_set_member members : forall acc,
  NoDup (map fst members) ->
  (forall kv, In kv members -> dict_get acc (fst kv) = None) ->
  fold_left set_member members acc = (acc ++ flat_object members)%list.
Proof.
  induction members as [|[k v] members IH]; intros acc Hnd Hfresh.
  - cbn. rewrite app_nil_r. reflexivity.
  - cbn [map fst] in Hnd. inversion Hnd as [|? ? Hnotin Hnd']; subst.
    cbn [fold_left]. unfold set_member at 2. cbn [fst snd].
    rewrite dict_set_fresh by (apply (Hfresh (k, v)); left; reflexivity).
    rewrite IH; [|exact Hnd'|].
    + rewrite <- app_assoc. reflexivity.
    + intros [k' v'] Hin. cbn [fst].
      apply dict_get_app_fresh; [apply (Hfresh (k', v')); right; exact Hin|].
      apply String.eqb_neq. intros ->. apply Hnotin.
      apply in_map_iff. exists (k', v'). split; [reflexivity | exact Hin].
Qed.

Lemma join_members_length members :
  length members <= String.length (join ", " (map member_text members)).
Proof.
  induction members as [|kv members IH]; [cbn; lia|].
  destruct members as [|kv' more].
  - cbn [map join length]. rewrite member_text_body. cbn [String.length]. lia.
  - cbn [map] in *. rewrite join_cons, !length_app, member_text_body.
    cbn [String.length length] in *. lia.
Qed.

Lemma object_text_length members :
  length members < String.length (object_text members).
Proof.
  unfold object_text. cbn [append String.length]. rewrite length_app.
  pose proof (join_members_length members). cbn [String.length]. lia.
Qed.

(** [json.loads] on the text of a flat object of plain strings with distinct
    keys gives the object, its entries in the order of the text. *)
Theorem flat_object_decodes (py : Runtime) (members : list (string * string)) :
  Forall (fun kv => plain (fst kv) = true /\ plain (snd kv) = true) members ->
  NoDup (map fst members) ->
  loads py (object_text members) = Decoded (VDict (flat_object members)).
Proof.
  intros Hplain Hnd. destruct members as [|kv more]; [reflexivity|].
  pose proof (object_text_length (kv :: more)) as Hlen.
  unfold loads. unfold object_text in *.
  change ("{" ++ join ", " (map member_text (kv :: more)) ++ "}")
    with (String "{" (join ", " (map member_text (kv :: more)) ++ "}" ++ EmptyString)) in *.
  rewrite join_members in *.
  cbn [skip_ws is_ws Ascii.eqb Bool.eqb orb]. cbn [scan_once].
  cbn [Ascii.eqb Bool.eqb dquote skip_ws is_ws orb].
  rewrite (scan_pairs_members py _ more kv [] _ EmptyString Hplain)
    by (cbn [length String.length] in *; lia).
  cbn [scan_map skip_ws].
  rewrite (fold_set_member (kv :: more) [] Hnd) by reflexivity.
  reflexivity.
Qed.

Lemma object_text_braced members : braced (object_text members) = true.
Proof.
  apply braced_spec. unfold object_text. split.
  - eexists. reflexivity.
  - exists ("{" ++ join ", " (map member_text members)).
    rewrite append_assoc. reflexivity.
Qed.

(** For every flat object of plain strings with distinct keys, none of which
    holds a colon followed by a space, the description computed from its
    text is one line per member, and reading the lines back gives the
    members. *)
Theorem flat_object_round_trip (py : Runtime) (members : list (string * string)) :
  Forall (fun kv => plain (fst kv) = true /\ plain (snd kv) = true) members ->
  NoDup (map fst members) ->
  Forall (fun kv => occurs ": " (fst kv) = false) members ->
  character_prompt_of py (VStr (object_text members))
  = Ok (VStr (join newline (map (fun kv => fst kv ++ ": " ++ snd kv) members)))
  /\ reparse (join newline (map (fun kv => fst kv ++ ": " ++ snd kv) members))
     = Some members.
Proof.
  intros Hplain Hnd Hkeys.
  assert (Hrender : map (render_item py) (flat_object members)
                    = map (fun kv => fst kv ++ ": " ++ snd kv) members).
  { unfold flat_object. rewrite map_map. reflexivity. }
  assert (Hentries : entries py (flat_object members) = members).
  { unfold entries, flat_object. rewrite map_map. cbn [fst snd str].
    rewrite <- (map_id members) at 2. apply map_ext. intros [k v]. reflexivity. }
  split.
  - cbn [character_prompt_of]. rewrite object_text_braced.
    rewrite (flat_object_decodes py members Hplain Hnd), Hrender. reflexivity.
  - rewrite <- Hrender. rewrite <- Hentries at 2.
    apply reparse_rendered. intros k v Hin.
    unfold flat_object in Hin. apply in_map_iff in Hin as ([k' v'] & [= <- <-] & Hin).
    rewrite Forall_forall in Hplain, Hkeys.
    destruct (Hplain _ Hin) as [Hk Hv]. specialize (Hkeys _ Hin). cbn [fst snd str] in *.
    repeat split; [exact Hkeys | apply plain_no_newline, Hk | apply plain_no_newline, Hv].
Qed.

(** The round trip at the specification's example. *)
Lemma flat_object_round_trip_witness :
  character_prompt_of Examples.plain_runtime (VStr Examples.hair_and_eyes)
  = Ok (VStr ("hair: red" ++ Py.newline ++ "eyes: blue"))
  /\ Spec.reparse ("hair: red" ++ Py.newline ++ "eyes: blue")
     = Some [("hair", "red"); ("eyes", "blue")].
Proof.
  apply (flat_object_round_trip Examples.plain_runtime
           [("hair", "red"); ("eyes", "blue")]).
  - repeat constructor.
  - repeat constructor; cbn; intuition discriminate.
  - repeat constructor.
Defined.

End FlatObjectFacts.

(** ** The upload *)

Module UploadFacts.
Import Py Env IPFSHelper.

Lemma append_empty s : s ++ EmptyString = s.
Proof. induction s as [|c s IH]; simpl; [reflexivity | rewrite IH; reflexivity]. Qed.

(** The template holds the placeholder once, at its end. *)
Lemma get_ipfs_url_str cid :
  get_ipfs_url (VStr cid) = Ok ("https://gateway.pinata.cloud/ipfs/" ++ cid).
Proof.
  unfold get_ipfs_url, replace, IPFS_PUBLIC_GATEWAY. cbn.
  rewrite append_empty. reflexivity.
Qed.

(** A successful upload went through [save] and Pinata, read a string CID
    from the answer, and returns the public gateway's URL of that CID. *)
Theorem upload_returns_gateway_url {Image : Type} (w : World Image)
    (image : Image) (filename u : string) :
  upload_image_and_get_url w image filename = Ok u ->
  exists answer cid,
    image_save w image filename = Ok tt
    /\ pin_file_to_ipfs w filename = Ok answer
    /\ dict_get answer "IpfsHash" = Some (VStr cid)
    /\ u = "https://gateway.pinata.cloud/ipfs/" ++ cid.
Proof.
  unfold upload_image_and_get_url, upload_image_to_ipfs, getitem.
  destruct (image_save w image filename) as [[]|e] eqn:Hsave; [|discriminate].
  destruct (pin_file_to_ipfs w filename) as [answer|e] eqn:Hpin.
  - destruct (dict_get answer "IpfsHash") as [cid|] eqn:Hcid.
    + intros H. exists answer.
      assert (Hurl : get_ipfs_url cid = Ok u).
      { destruct (path_exists w filename); [|exact H].
        destruct (os_remove w filename); [exact H | discriminate H]. }
      destruct cid; try discriminate Hurl.
      rewrite get_ipfs_url_str in Hurl. injection Hurl as <-.
      exists s. repeat split; assumption || reflexivity.
    + destruct (path_exists w filename); [|discriminate].
      destruct (os_remove w filename); discriminate.
  - destruct (path_exists w filename); [|discriminate].
    destruct (os_remove w filename); discriminate.
Qed.

Lemma upload_returns_gateway_url_witness :
  exists answer cid,
    image_save (Examples.healthy_world Examples.pending_knight) Examples.demo_image
      "task-1.png" = Ok tt
    /\ pin_file_to_ipfs (Examples.healthy_world Examples.pending_knight) "task-1.png"
       = Ok answer
    /\ dict_get answer "IpfsHash" = Some (VStr cid)
    /\ "https://gateway.pinata.cloud/ipfs/cid123"
       = "https://gateway.pinata.cloud/ipfs/" ++ cid.
Proof.
  exact (upload_returns_gateway_url (Examples.healthy_world Examples.pending_knight)
           Examples.demo_image "task-1.png" "https://gateway.pinata.cloud/ipfs/cid123"
           eq_refl).
Defined.

End UploadFacts.

(** ** The agent *)

Module AgentFacts.
Import Py Json Env ImageGenerator IPFSHelper Agent JsonFacts StringFacts.

(** On a text that starts with an opening brace, [json.loads] returns a dict,
    or raises [JSONDecodeError], or raises one of its two other errors. *)
Lemma brace_loads py s :
  startswith s "{" = true ->
  (exists d, loads py s = Decoded (VDict d))
  \/ (exists msg, loads py s = JSONDecodeError msg)
  \/ (exists e, loads py s = Raises e /\ limit_error e).
Proof.
  intros H. apply startswith_char in H as [rest ->].
  pose proof (loads_never_exhausted py (String "{" rest)) as Hne.
  pose proof (loads_raises py (String "{" rest)) as Hraises.
  unfold loads in *. cbn [skip_ws is_ws] in *.
  change (is_ws "{") with false in *. cbv iota in *.
  cbn [scan_once] in *.
  change (Ascii.eqb "{" dquote) with false in *.
  change (Ascii.eqb "{" "{") with true in *. cbv iota in *.
  destruct (skip_ws rest) as [|d rest1]; [right; left; eauto|].
  destruct (Ascii.eqb d "}").
  { destruct (skip_ws rest1); [left|right; left]; eauto. }
  destruct (Ascii.eqb d dquote); [|right; left; eauto].
  destruct (scan_pairs _ _ _ _ _) as [d0 r0| | |]; cbn [scan_map] in *.
  - destruct (skip_ws r0); [left|right; left]; eauto.
  - right; left; eauto.
  - right; right; eauto.
  - congruence.
Qed.

Lemma braced_startswith s : braced s = true -> startswith s "{" = true.
Proof. unfold braced. intros H. apply andb_true_iff in H. tauto. Qed.


(** A value that is not a string prints. *)
Lemma print_not_string v : match v with VStr _ => False | _ => True end -> print v = Ok tt.
Proof. destruct v; simpl; intros H; [reflexivity .. | contradiction | reflexivity | reflexivity]. Qed.


Ltac unfold_run :=
  unfold run, generate_and_report, report_failure, try_except, bind, lift, ret,
    call_get_step, call_log_task, call_generate_image, call_upload,
    call_update_step, call, getitem.

Section RunFacts.
Context {Image : Type} (py : Runtime) (w : World Image).

Lemma run_step_read_fails data sid e :
  dict_get data "step_id" = Some sid ->
  get_step w sid = Raise e ->
  run py w data [] = (Raise e, [GetStep sid]).
Proof. intros Hsid Hget. unfold_run. rewrite Hsid, Hget. reflexivity. Qed.

Lemma run_not_pending data sid step st :
  dict_get data "step_id" = Some sid ->
  get_step w sid = Ok step ->
  dict_get step "step_status" = Some st ->
  differs_from st (status_value Pending) = true ->
  run py w data [] = (Ok tt, [GetStep sid]).
Proof.
  intros Hsid Hget Hst Hd. unfold_run. rewrite Hsid, Hget. cbn [app].
  rewrite Hst, Hd. reflexivity.
Qed.

Section Pending.
Variables (data step : dict) (sid tid : value).
Hypothesis Hsid : dict_get data "step_id" = Some sid.
Hypothesis Hget : get_step w sid = Ok step.
Hypothesis Hpending : dict_get step "step_status" = Some (VStr (status_value Pending)).
Hypothesis Htid : dict_get step "task_id" = Some tid.

Let input_query := dict_get_default step "input_query" (VStr EmptyString).
Let started : list (event Image) := [GetStep sid; LogTask (start_log tid)].

Lemma run_start_log_fails e :
  log_task w (start_log tid) = Raise e ->
  run py w data [] = (Raise e, started).
Proof.
  intros Hlog. unfold_run. rewrite Hsid, Hget. cbn [app].
  rewrite Hpending. cbn [differs_from status_value String.eqb Ascii.eqb Bool.eqb negb].
  rewrite Htid, Hlog. reflexivity.
Qed.

(** Up to the description: what [run] comes to once the start log is
    answered, when line 68 raises, when line 78 raises, and when neither
    does. *)
Lemma run_description_fails e :
  log_task w (start_log tid) = Ok tt ->
  character_prompt_of py input_query = Raise e ->
  run py w data [] = (Raise e, started).
Proof.
  intros Hlog Hcp. unfold run, bind, lift, ret, call_get_step, call_log_task, call, getitem.
  rewrite Hsid, Hget. cbn [app].
  rewrite Hpending. cbn [differs_from status_value String.eqb Ascii.eqb Bool.eqb negb].
  rewrite Htid, Hlog. fold input_query. rewrite Hcp. reflexivity.
Qed.

Lemma run_print_fails v e :
  log_task w (start_log tid) = Ok tt ->
  character_prompt_of py input_query = Ok v ->
  print v = Raise e ->
  run py w data [] = (Raise e, started).
Proof.
  intros Hlog Hcp Hprint.
  unfold run, bind, lift, ret, call_get_step, call_log_task, call, getitem.
  rewrite Hsid, Hget. cbn [app].
  rewrite Hpending. cbn [differs_from status_value String.eqb Ascii.eqb Bool.eqb negb].
  rewrite Htid, Hlog. fold input_query. rewrite Hcp, Hprint. reflexivity.
Qed.

Lemma run_started v :
  log_task w (start_log tid) = Ok tt ->
  character_prompt_of py input_query = Ok v ->
  print v = Ok tt ->
  run py w data [] =
    if truthy py v
    then try_except (generate_and_report py w data step v) (report_failure w step) started
    else (log_task w (no_data_log tid), (started ++ [LogTask (no_data_log tid)])%list).
Proof.
  intros Hlog Hcp Hprint.
  unfold run, bind, lift, ret, call_get_step, call_log_task, call, getitem.
  rewrite Hsid, Hget. cbn [app].
  rewrite Hpending. cbn [differs_from status_value String.eqb Ascii.eqb Bool.eqb negb].
  rewrite Htid, Hlog. fold input_query. rewrite Hcp, Hprint.
  destruct (truthy py v); reflexivity.
Qed.

(** The handler: the failure is logged and the outcome of that call is the
    outcome of [run]. *)
Lemma report_failure_run e t :
  report_failure w step e t = (log_task w (failure_log tid e), (t ++ [LogTask (failure_log tid e)])%list).
Proof. unfold_run. rewrite Htid. reflexivity. Qed.

(** What the body of the [try] comes to, call by call. *)
Lemma generate_and_report_run v t :
  generate_and_report py w data step v t =
    match generate_image w v with
    | Raise e => (Raise e, (t ++ [GenerateImage v])%list)
    | Ok image =>
        match getitem data "task_id" with
        | Raise e => (Raise e, (t ++ [GenerateImage v])%list)
        | Ok dtid =>
            let filename := str py dtid ++ ".png" in
            match upload_image_and_get_url w image filename with
            | Raise e => (Raise e, (t ++ [GenerateImage v; Upload image filename])%list)
            | Ok u =>
                match getitem data "did" with
                | Raise e => (Raise e, (t ++ [GenerateImage v; Upload image filename])%list)
                | Ok did =>
                    let upd := UpdateStep did dtid sid (completed_step sid dtid u) in
                    match update_step w did dtid sid (completed_step sid dtid u) with
                    | Raise e =>
                        (Raise e, (t ++ [GenerateImage v; Upload image filename; upd])%list)
                    | Ok _ =>
                        (log_task w (completed_log tid),
                         (t ++ [GenerateImage v; Upload image filename; upd;
                                LogTask (completed_log tid)])%list)
                    end
                end
            end
        end
    end.
Proof.
  unfold_run.
  destruct (generate_image w v) as [image|e]; [|reflexivity].
  destruct (dict_get data "task_id") as [dtid|]; [|reflexivity].
  destruct (upload_image_and_get_url w image _) as [u|e]; [|rewrite <- app_assoc; reflexivity].
  destruct (dict_get data "did") as [did|]; [|rewrite <- app_assoc; reflexivity].
  rewrite Hsid.
  destruct (update_step w did dtid sid _) as [[]|e];
    try rewrite Htid; rewrite <- !app_assoc; reflexivity.
Qed.

End Pending.
End RunFacts.
End AgentFacts.

(** * The properties of the specification *)

Import Py Json Env ImageGenerator IPFSHelper Agent JsonFacts StringFacts RenderFacts AgentFacts.

(** C1, at a description that cannot be printed.  The step is Pending, its
    payload decodes and is rendered as a description that is not empty, the
    pipeline gives an image, the upload gives a URL and the gateway answers
    every call; [run] raises [UnicodeEncodeError] at the print of line 78,
    right after the start log: the image is not generated, and there is
    neither a step update nor a completion log. *)
Theorem happy_path_ends_at_the_print :
  character_prompt_of Examples.plain_runtime (VStr Examples.lone_surrogate_payload)
  = Ok (VStr Examples.lone_surrogate_description)
  /\ Examples.lone_surrogate_description <> EmptyString
  /\ generate_image (Examples.healthy_world Examples.pending_surrogate)
       (VStr Examples.lone_surrogate_description) = Ok Examples.demo_image
  /\ upload_image_and_get_url (Examples.healthy_world Examples.pending_surrogate)
       Examples.demo_image "task-1.png"
     = Ok "https://gateway.pinata.cloud/ipfs/cid123"
  /\ print (VStr Examples.lone_surrogate_description) = Raise Examples.surrogate_error
  /\ run Examples.plain_runtime (Examples.healthy_world Examples.pending_surrogate)
       Examples.demo_data []
     = (Raise Examples.surrogate_error,
        [GetStep (VStr "step-1"); LogTask (start_log (VStr "task-1"))]).
Proof. repeat split; try reflexivity. discriminate. Qed.

(** C2, at a description that cannot be printed.  The step is Pending, its
    description is not empty and the pipeline raises; [run] does not reach
    the pipeline: it raises [UnicodeEncodeError] at the print of line 78,
    before the [try], so that no error log is made and the exception leaves
    [run]. *)
Theorem failure_is_not_logged_at_the_print :
  character_prompt_of Examples.plain_runtime (VStr Examples.lone_surrogate_payload)
  = Ok (VStr Examples.lone_surrogate_description)
  /\ truthy Examples.plain_runtime (VStr Examples.lone_surrogate_description) = true
  /\ generate_image (Examples.pipeline_down Examples.pending_surrogate)
       (VStr Examples.lone_surrogate_description) = Raise Examples.generation_error
  /\ run Examples.plain_runtime (Examples.pipeline_down Examples.pending_surrogate)
       Examples.demo_data []
     = (Raise Examples.surrogate_error,
        [GetStep (VStr "step-1"); LogTask (start_log (VStr "task-1"))])
  /\ error_logs (snd (run Examples.plain_runtime
                         (Examples.pipeline_down Examples.pending_surrogate)
                         Examples.demo_data [])) = [].
Proof. repeat split; reflexivity. Qed.

(** C3. No-op guarantee.  For a step whose fetched [step_status] is not
    Pending, [run] returns without any log call, step update call, generation
    or upload. *)
Theorem non_pending_step_is_skipped {Image : Type} (py : Runtime) (w : World Image)
    (data step : dict) (sid st : value) :
  dict_get data "step_id" = Some sid ->
  get_step w sid = Ok step ->
  dict_get step "step_status" = Some st ->
  st <> VStr (status_value Pending) ->
  exists t,
    run py w data [] = (Ok tt, t)
    /\ log_calls t = []
    /\ update_calls t = []
    /\ generate_calls t = []
    /\ upload_calls t = [].
Proof.
  intros Hsid Hget Hst Hne.
  assert (Hd : differs_from st (status_value Pending) = true).
  { destruct st; try reflexivity. simpl.
    destruct (String.eqb_spec s "Pending"); [subst; contradiction|reflexivity]. }
  rewrite (run_not_pending py w data sid step st Hsid Hget Hst Hd).
  eexists; repeat split; reflexivity.
Qed.

(** C3 on a step that is already Completed. *)
Lemma non_pending_step_is_skipped_witness :
  exists t,
    run Examples.plain_runtime
      (Examples.healthy_world (Examples.demo_step "Completed" (Some Examples.knight)))
      Examples.demo_data [] = (Ok tt, t)
    /\ log_calls t = []
    /\ update_calls t = []
    /\ generate_calls t = []
    /\ upload_calls t = [].
Proof.
  apply (non_pending_step_is_skipped Examples.plain_runtime
           (Examples.healthy_world (Examples.demo_step "Completed" (Some Examples.knight)))
           Examples.demo_data (Examples.demo_step "Completed" (Some Examples.knight))
           (VStr "step-1") (VStr "Completed") eq_refl eq_refl eq_refl).
  discriminate.
Defined.

(** C4, at two payloads in braces that are not JSON.  On the first,
    [json.loads] meets an integer of 4301 digits and raises [ValueError]; on
    the second it enters more arrays than the interpreter allows and raises
    [RecursionError].  Neither is a [JSONDecodeError], the only exception that
    line 72 catches: the normalizer raises instead of yielding [None], and
    [run] raises right after the start log, without the error log. *)
Theorem malformed_payload_escapes_the_handler :
  (braced Examples.long_integer_payload = true
   /\ loads Examples.plain_runtime Examples.long_integer_payload
      = Raises (int_digits_error 4300 4301)
   /\ character_prompt_of Examples.plain_runtime (VStr Examples.long_integer_payload)
      = Raise (int_digits_error 4300 4301)
   /\ run Examples.plain_runtime
        (Examples.healthy_world
           (Examples.demo_step "Pending" (Some (VStr Examples.long_integer_payload))))
        Examples.demo_data []
      = (Raise (int_digits_error 4300 4301),
         [GetStep (VStr "step-1"); LogTask (start_log (VStr "task-1"))]))
  /\ (braced Examples.deep_payload = true
      /\ loads Examples.plain_runtime Examples.deep_payload
         = Raises (recursion_error "array")
      /\ character_prompt_of Examples.plain_runtime (VStr Examples.deep_payload)
         = Raise (recursion_error "array")
      /\ run Examples.plain_runtime
           (Examples.healthy_world
              (Examples.demo_step "Pending" (Some (VStr Examples.deep_payload))))
           Examples.demo_data []
         = (Raise (recursion_error "array"),
            [GetStep (VStr "step-1"); LogTask (start_log (VStr "task-1"))])).
Proof. repeat split; vm_compute; reflexivity. Qed.

(** C10. Absent input and the empty object.  For a Pending step whose
    [input_query] is absent, or is the text of the empty JSON object (which
    decodes, to the empty dict, and renders as the empty description), [run]
    takes the validation-failure path (the gateway answering its calls): the
    error log "No character data provided." with [task_status=Failed], no
    step update, and no exception. *)
Theorem absent_or_empty_object_input {Image : Type} (py : Runtime) (w : World Image)
    (data step : dict) (sid tid : value) :
  dict_get data "step_id" = Some sid ->
  get_step w sid = Ok step ->
  dict_get step "step_status" = Some (VStr (status_value Pending)) ->
  dict_get step "task_id" = Some tid ->
  log_task w (start_log tid) = Ok tt ->
  log_task w (no_data_log tid) = Ok tt ->
  (dict_get step "input_query" = None
   \/ dict_get step "input_query" = Some (VStr "{}")) ->
  loads py "{}" = Decoded (VDict [])
  /\ character_prompt_of py (dict_get_default step "input_query" (VStr EmptyString))
     = Ok (VStr EmptyString)
  /\ run py w data [] =
       (Ok tt, [GetStep sid; LogTask (start_log tid); LogTask (no_data_log tid)])
  /\ message (no_data_log tid) = "No character data provided."
  /\ level (no_data_log tid) = "error"
  /\ task_status (no_data_log tid) = Some "Failed".
Proof.
  intros Hsid Hget Hpend Htid Hstart Hlog Hin.
  assert (Hcp : character_prompt_of py
                  (dict_get_default step "input_query" (VStr EmptyString))
                = Ok (VStr EmptyString)).
  { unfold dict_get_default. destruct Hin as [-> | ->]; reflexivity. }
  split; [reflexivity|]. split; [exact Hcp|].
  rewrite (run_started py w data step sid tid Hsid Hget Hpend Htid _ Hstart Hcp eq_refl).
  cbn [truthy String.eqb negb]. rewrite Hlog.
  repeat split; reflexivity.
Qed.

(** C10 on a step that has no [input_query]. *)
Lemma absent_or_empty_object_input_witness :
  run Examples.plain_runtime
    (Examples.healthy_world (Examples.demo_step "Pending" None))
    Examples.demo_data []
  = (Ok tt, [GetStep (VStr "step-1"); LogTask (start_log (VStr "task-1"));
             LogTask (no_data_log (VStr "task-1"))]).
Proof.
  apply (absent_or_empty_object_input Examples.plain_runtime
           (Examples.healthy_world (Examples.demo_step "Pending" None))
           Examples.demo_data (Examples.demo_step "Pending" None)
           (VStr "step-1") (VStr "task-1") eq_refl eq_refl eq_refl eq_refl eq_refl eq_refl
           (or_introl eq_refl)).
Defined.

Ltac case_step H :=
  match type of H with
  | context [match ?x with _ => _ end] =>
      lazymatch x with
      | context [match _ with _ => _ end] => fail
      | _ => destruct x eqn:?
      end
  end.







(** C8, as stated, fails: two flat objects with string values, one with a
    single entry whose value holds a line feed and one with two entries, are
    rendered as the same two lines, so no reading of the lines recovers both;
    the reading of the specification recovers the second. *)
Lemma rendering_is_not_injective :
  braced Examples.one_entry_two_lines = true
  /\ braced Examples.two_entries = true
  /\ loads Examples.plain_runtime Examples.one_entry_two_lines
     = Decoded (VDict [("a", VStr ("x" ++ newline ++ "y: z"))])
  /\ loads Examples.plain_runtime Examples.two_entries
     = Decoded (VDict [("a", VStr "x"); ("y", VStr "z")])
  /\ character_prompt_of Examples.plain_runtime (VStr Examples.one_entry_two_lines)
     = Ok (VStr ("a: x" ++ newline ++ "y: z"))
  /\ character_prompt_of Examples.plain_runtime (VStr Examples.two_entries)
     = Ok (VStr ("a: x" ++ newline ++ "y: z"))
  /\ Spec.reparse ("a: x" ++ newline ++ "y: z") = Some [("a", "x"); ("y", "z")]
  /\ Spec.reparse ("a: x" ++ newline ++ "y: z")
     <> Some (Spec.entries Examples.plain_runtime
                [("a", VStr ("x" ++ newline ++ "y: z"))]).
Proof. repeat split; try reflexivity. discriminate. Qed.

(** C8, amended.  A payload in braces that decodes to an object is rendered
    as one line "key: value" per entry, in the order of the entries, joined
    by newlines; when no key holds a line feed or a colon followed by a
    space and no value, as text, holds a line feed, reading the lines back
    gives the same keys in the same order with the same values as text. *)
Theorem rendered_lines_round_trip (py : Runtime) (payload : string) (d : dict) :
  braced payload = true ->
  loads py payload = Decoded (VDict d) ->
  character_prompt_of py (VStr payload)
  = Ok (VStr (join newline (map (render_item py) d)))
  /\ ((forall k v, In (k, v) d ->
         Spec.occurs ": " k = false
         /\ Spec.occurs newline k = false
         /\ Spec.occurs newline (str py v) = false) ->
      Spec.reparse (join newline (map (render_item py) d)) = Some (Spec.entries py d)).
Proof.
  intros Hb Hl. split.
  - simpl. rewrite Hb, Hl. reflexivity.
  - apply reparse_rendered.
Qed.

(** C8, amended, at the specification's example. *)
Lemma rendered_lines_round_trip_witness :
  character_prompt_of Examples.plain_runtime (VStr Examples.hair_and_eyes)
  = Ok (VStr ("hair: red" ++ newline ++ "eyes: blue"))
  /\ Spec.reparse ("hair: red" ++ newline ++ "eyes: blue")
     = Some [("hair", "red"); ("eyes", "blue")].
Proof.
  destruct (rendered_lines_round_trip Examples.plain_runtime Examples.hair_and_eyes
              [("hair", VStr "red"); ("eyes", VStr "blue")] eq_refl eq_refl)
    as [Hrender Hback].
  split; [exact Hrender|].
  apply Hback. intros k v [H | [H | []]]; inversion H; subst; repeat split; reflexivity.
Defined.

(** C9, as stated, fails: the example payload with a space on each side has
    a trimmed form in braces, yet the code does not take it for structured,
    makes no attempt to decode it and passes it through unchanged. *)
Lemma padded_payload_is_not_decoded :
  Spec.trimmed_braced Examples.padded_payload = true
  /\ braced Examples.padded_payload = false
  /\ loads Examples.plain_runtime Examples.padded_payload
     = Decoded (VDict [("hair", VStr "red"); ("eyes", VStr "blue")])
  /\ character_prompt_of Examples.plain_runtime (VStr Examples.padded_payload)
     = Ok (VStr Examples.padded_payload).
Proof. repeat split; reflexivity. Qed.

(** C9, amended.  The code takes a string payload for structured exactly
    when the payload itself, untrimmed, starts with an opening brace and ends
    with a closing brace.  Such a payload is handed to [json.loads], and what
    the normalizer gives follows from what [json.loads] does: the lines of the
    object it returns, [None] when it raises [JSONDecodeError], and its error
    when it raises another one, a [ValueError] or a [RecursionError].  Every
    other payload is passed through unchanged. *)
Theorem structured_iff_braced (py : Runtime) (payload : string) :
  (braced payload = true <->
   (exists rest, payload = String "{" rest) /\ (exists front, payload = front ++ "}"))
  /\ (braced payload = true ->
      (exists d, loads py payload = Decoded (VDict d)
                 /\ character_prompt_of py (VStr payload)
                    = Ok (VStr (join newline (map (render_item py) d))))
      \/ (exists msg, loads py payload = JSONDecodeError msg
                      /\ character_prompt_of py (VStr payload) = Ok VNone)
      \/ (exists e, loads py payload = Raises e
                    /\ limit_error e
                    /\ character_prompt_of py (VStr payload) = Raise e))
  /\ (braced payload = false ->
      character_prompt_of py (VStr payload) = Ok (VStr payload)).
Proof.
  split; [apply braced_spec|]. split.
  - intros Hb. simpl. rewrite Hb.
    destruct (brace_loads py payload (braced_startswith _ Hb))
      as [[d Hd]|[[msg Hm]|[e [He Hlimit]]]].
    + left. exists d. rewrite Hd. split; reflexivity.
    + right; left. exists msg. rewrite Hm. split; reflexivity.
    + right; right. exists e. rewrite He. repeat split; assumption || reflexivity.
  - intros Hb. simpl. rewrite Hb. reflexivity.
Qed.

(** * Further properties of the code *)

(** ** The generator and the upload helpers *)

Module CollaboratorFacts.
Import Py Env ImageGenerator IPFSHelper Reading StringFacts UploadFacts.

Lemma append_inv_tail (a b s : string) : a ++ s = b ++ s -> a = b.
Proof.
  revert b; induction a as [|c a IH]; intros [|d b] H.
  - reflexivity.
  - exfalso. apply (f_equal String.length) in H.
    cbn [append String.length] in H. rewrite length_app in H. lia.
  - exfalso. apply (f_equal String.length) in H.
    cbn [append String.length] in H. rewrite length_app in H. lia.
  - cbn [append] in H. injection H as -> H. f_equal. apply IH, H.
Qed.

(** Distinct descriptions give distinct prompts: [create_prompt] wraps the
    description, unchanged, between a fixed prefix and a fixed suffix, and
    raises [TypeError] on anything that is not a string. *)
Theorem create_prompt_is_injective (a b : value) (p : string) :
  create_prompt a = Ok p ->
  create_prompt b = Ok p ->
  a = b /\ exists s, a = VStr s /\ p = "photo of " ++ s ++ prompt_suffix.
Proof.
  destruct a as [| | | |sa| |], b as [| | | |sb| |]; try discriminate.
  cbn [create_prompt]. intros [= <-] [= H].
  cbn [append] in H. apply append_inv_tail in H. subst.
  split; [reflexivity|]. exists sa. split; reflexivity.
Qed.

Lemma create_prompt_is_injective_witness :
  Examples.knight = Examples.knight
  /\ exists s, Examples.knight = VStr s
               /\ "photo of " ++ "a knight in silver armor" ++ prompt_suffix
                  = "photo of " ++ s ++ prompt_suffix.
Proof.
  exact (create_prompt_is_injective Examples.knight Examples.knight
           ("photo of " ++ "a knight in silver armor" ++ prompt_suffix) eq_refl eq_refl).
Defined.

(** When [generate_image] returns an image, the description was a string,
    the pipeline was asked once, with the prompt built from it, the fixed
    settings (guidance 5, 50 steps, 512 by 512, seed 1, the fixed negative
    prompt) and autocast exactly on CUDA, and the image is the first one the
    pipeline returned. *)
Theorem generated_image_is_first_of_fixed_call {Image : Type} (w : World Image)
    (character : value) (image : Image) :
  generate_image w character = Ok image ->
  exists s c more,
    character = VStr s
    /\ prompt c = "photo of " ++ s ++ prompt_suffix
    /\ fixed_settings c
    /\ autocast c = device_is_cuda w
    /\ pipe w c = Ok (image :: more).
Proof.
  unfold generate_image. destruct character as [| | | |s| |]; try discriminate.
  cbn [create_prompt].
  match goal with
  | |- match pipe w ?call with _ => _ end = _ -> _ => set (c := call)
  end.
  destruct (pipe w c) as [[|first more]|e] eqn:Hpipe; try discriminate.
  intros [= <-]. exists s, c, more. unfold fixed_settings.
  repeat split; try reflexivity. exact Hpipe.
Qed.

Lemma generated_image_is_first_of_fixed_call_witness :
  exists s c more,
    Examples.knight = VStr s
    /\ prompt c = "photo of " ++ s ++ prompt_suffix
    /\ fixed_settings c
    /\ autocast c = device_is_cuda (Examples.healthy_world Examples.pending_knight)
    /\ pipe (Examples.healthy_world Examples.pending_knight) c
       = Ok (Examples.demo_image :: more).
Proof.
  exact (generated_image_is_first_of_fixed_call
           (Examples.healthy_world Examples.pending_knight) Examples.knight
           Examples.demo_image eq_refl).
Defined.

(** Every way [generate_image] fails: the [TypeError] of [create_prompt] on a
    description that is not a string, the pipeline not being asked; or the
    error of the pipeline itself; or [IndexError] when the pipeline returned
    no image. *)
Theorem generate_failure_modes {Image : Type} (w : World Image)
    (character : value) (e : exn) :
  generate_image w character = Raise e ->
  (is_string character = false /\ e = type_error_concat character)
  \/ exists s c,
       character = VStr s
       /\ prompt c = "photo of " ++ s ++ prompt_suffix
       /\ fixed_settings c
       /\ (pipe w c = Raise e
           \/ (pipe w c = Ok [] /\ e = mkExn "IndexError" "list index out of range")).
Proof.
  unfold generate_image.
  destruct character as [| | | |s| |];
    try (intros [= <-]; left; split; reflexivity).
  cbn [create_prompt].
  match goal with
  | |- match pipe w ?call with _ => _ end = _ -> _ => set (c := call)
  end.
  destruct (pipe w c) as [[|first more]|e0] eqn:Hpipe; try discriminate;
    intros [= <-]; right; exists s, c; unfold fixed_settings;
    repeat split; try reflexivity;
    [right; split; [exact Hpipe | reflexivity] | left; exact Hpipe].
Qed.

Lemma generate_failure_modes_witness :
  (is_string MoreExamples.object_input = false
   /\ type_error_concat MoreExamples.object_input
      = type_error_concat MoreExamples.object_input)
  \/ exists s c,
       MoreExamples.object_input = VStr s
       /\ prompt c = "photo of " ++ s ++ prompt_suffix
       /\ fixed_settings c
       /\ (pipe (Examples.healthy_world Examples.pending_knight) c
           = Raise (type_error_concat MoreExamples.object_input)
           \/ (pipe (Examples.healthy_world Examples.pending_knight) c = Ok []
               /\ type_error_concat MoreExamples.object_input
                  = mkExn "IndexError" "list index out of range")).
Proof.
  exact (generate_failure_modes (Examples.healthy_world Examples.pending_knight)
           MoreExamples.object_input (type_error_concat MoreExamples.object_input)
           eq_refl).
Defined.

(** The URL of a content identifier: the public gateway's prefix followed by
    the identifier, whatever the identifier holds (the placeholder text
    included), so that the identifier is read back by dropping the prefix. *)
Theorem ipfs_url_round_trip (cid : string) :
  exists url,
    get_ipfs_url (VStr cid) = Ok url
    /\ startswith url gateway_prefix = true
    /\ drop (String.length gateway_prefix) url = cid.
Proof.
  exists ("https://gateway.pinata.cloud/ipfs/" ++ cid).
  split; [apply get_ipfs_url_str|]. split; reflexivity.
Qed.

(** When the upload succeeds, and only then. *)
Lemma upload_ok_iff {Image : Type} (w : World Image)
    (image : Image) (filename u : string) :
  upload_image_and_get_url w image filename = Ok u <->
  image_save w image filename = Ok tt
  /\ (path_exists w filename = false \/ os_remove w filename = Ok tt)
  /\ exists answer cid,
       pin_file_to_ipfs w filename = Ok answer
       /\ dict_get answer "IpfsHash" = Some (VStr cid)
       /\ u = gateway_prefix ++ cid.
Proof.
  unfold upload_image_and_get_url, upload_image_to_ipfs, getitem. split.
  - destruct (image_save w image filename) as [[]|e0]; [|discriminate].
    intros H. split; [reflexivity|].
    assert (Hclean : path_exists w filename = false \/ os_remove w filename = Ok tt).
    { destruct (path_exists w filename); [|left; reflexivity].
      destruct (os_remove w filename) as [[]|e1]; [right; reflexivity | discriminate H]. }
    split; [exact Hclean|].
    destruct (pin_file_to_ipfs w filename) as [answer|cause].
    + destruct (dict_get answer "IpfsHash") as [cid|] eqn:Hcid.
      * assert (Hurl : get_ipfs_url cid = Ok u).
        { destruct (path_exists w filename); [|exact H].
          destruct (os_remove w filename); [exact H | discriminate H]. }
        destruct cid; try discriminate Hurl.
        rewrite get_ipfs_url_str in Hurl. injection Hurl as <-.
        exists answer, s. repeat split; first [assumption | reflexivity].
      * exfalso. destruct (path_exists w filename); [|discriminate H].
        destruct (os_remove w filename); discriminate H.
    + exfalso. destruct (path_exists w filename); [|discriminate H].
      destruct (os_remove w filename); discriminate H.
  - intros (-> & Hclean & answer & cid & -> & -> & ->).
    destruct Hclean as [-> | Hrm].
    + apply get_ipfs_url_str.
    + rewrite Hrm. destruct (path_exists w filename); apply get_ipfs_url_str.
Qed.





End CollaboratorFacts.

(** ** The construction of the generator *)

Module InitFacts.
Import Py ImageGeneratorInit.

(** When [__init__] succeeds, the device follows the fallback chain (CUDA
    when it is available, MPS only when CUDA is not, the CPU only when
    neither is), the one checkpoint was loaded from safetensors in half
    precision exactly on CUDA, which is exactly when [generate_image] runs the
    pipeline under autocast, and the pipeline was moved to the device and
    attention slicing enabled. *)
Theorem init_follows_the_fallback_chain {Pipe : Type} (torch : Torch Pipe)
    (g : Generator Pipe) :
  init torch = Ok g ->
  (device g = Cuda <-> cuda_is_available torch = true)
  /\ (device g = Mps <-> cuda_is_available torch = false /\ mps_is_available torch = true)
  /\ (device g = Cpu <-> cuda_is_available torch = false /\ mps_is_available torch = false)
  /\ (exists dtype,
        from_single_file torch checkpoint_path true dtype = Ok (pipe_handle g)
        /\ (dtype = Float16 <-> device g = Cuda)
        /\ (dtype = Float16 <-> uses_autocast g = true))
  /\ pipe_to torch (pipe_handle g) (device g) = Ok tt
  /\ enable_attention_slicing torch (pipe_handle g) = Ok tt.
Proof.
  unfold init, uses_autocast.
  destruct (cuda_is_available torch), (mps_is_available torch); cbv zeta;
    destruct (from_single_file torch checkpoint_path true _) as [p|e] eqn:Hload;
    try discriminate;
    destruct (pipe_to torch p _) as [[]|e1] eqn:Hto; try discriminate;
    destruct (enable_attention_slicing torch p) as [[]|e2] eqn:Hslice; try discriminate;
    intros [= <-]; cbn [device pipe_handle];
    repeat split; try discriminate; try reflexivity; try assumption;
    try (intros [? ?]; discriminate);
    (eexists; split; [exact Hload|]; split; split; intros;
     (discriminate || reflexivity)).
Qed.

Lemma init_follows_the_fallback_chain_witness :
  exists g,
    init MoreExamples.apple_torch = Ok g
    /\ (device g = Mps <->
        cuda_is_available MoreExamples.apple_torch = false
        /\ mps_is_available MoreExamples.apple_torch = true).
Proof.
  exists {| device := Mps; pipe_handle := checkpoint_path |}.
  split; [reflexivity|].
  exact (proj1 (proj2 (init_follows_the_fallback_chain MoreExamples.apple_torch
                         {| device := Mps; pipe_handle := checkpoint_path |} eq_refl))).
Defined.

End InitFacts.

(** ** The description computed from [input_query] *)

Module NormalizerFacts.
Import Py Json Env Agent Spec Reading JsonFacts StringFacts FlatObjectFacts AgentFacts.

(** Lines 62-76, whatever the step holds as [input_query].  Either they give
    a description, which is the input itself, or [None], or the rendered lines
    of a decoded object; or they raise, and then the input is a text in braces
    on which [json.loads] raised a [ValueError] or a [RecursionError], which
    [except json.JSONDecodeError] does not catch.  In particular [.items()] is
    never called on a decoded value that is not a dict: on a text that starts
    with an opening brace [json.loads] returns a dict or raises. *)
Theorem description_is_input_none_or_lines (py : Runtime) (input_query : value) :
  (exists description,
     character_prompt_of py input_query = Ok description
     /\ (description = input_query
         \/ description = VNone
         \/ exists d, description = VStr (join newline (map (render_item py) d))))
  \/ (exists s e,
        input_query = VStr s
        /\ braced s = true
        /\ loads py s = Raises e
        /\ limit_error e
        /\ character_prompt_of py input_query = Raise e).
Proof.
  destruct input_query; cbn [character_prompt_of]; eauto.
  destruct (braced s) eqn:Hb; [|eauto].
  destruct (brace_loads py s (braced_startswith _ Hb))
    as [[d Hl]|[[msg Hl]|[e [Hl He]]]]; rewrite Hl.
  - left. eauto 6.
  - left. eauto 6.
  - right. exists s, e. repeat split; assumption || reflexivity.
Qed.

Lemma existsb_eqb_app k (a b : list string) :
  existsb (String.eqb k) (a ++ b)%list
  = existsb (String.eqb k) a || existsb (String.eqb k) b.
Proof. apply existsb_app. Qed.

Lemma keys_dict_set (d : dict) k v :
  map fst (dict_set d k v)
  = if existsb (String.eqb k) (map fst d) then map fst d else (map fst d ++ [k])%list.
Proof.
  induction d as [|[k' v'] d IH]; cbn [dict_set map fst existsb app]; [reflexivity|].
  rewrite (String.eqb_sym k k').
  destruct (String.eqb k' k); cbn [map fst orb]; [reflexivity|].
  rewrite IH. destruct (existsb (String.eqb k) (map fst d)); reflexivity.
Qed.

Lemma dict_get_dict_set (d : dict) k v k' :
  dict_get (dict_set d k v) k' = if String.eqb k k' then Some v else dict_get d k'.
Proof.
  induction d as [|[k0 v0] d IH]; cbn [dict_set dict_get]; [reflexivity|].
  destruct (String.eqb_spec k0 k) as [->|Hne]; cbn [dict_get].
  - destruct (String.eqb k k'); reflexivity.
  - rewrite IH. destruct (String.eqb_spec k0 k') as [->|]; [|reflexivity].
    destruct (String.eqb_spec k k'); [congruence|reflexivity].
Qed.

Lemma first_occurrences_ext keys : forall seen seen',
  (forall k, existsb (String.eqb k) seen = existsb (String.eqb k) seen') ->
  first_occurrences seen keys = first_occurrences seen' keys.
Proof.
  induction keys as [|k keys IH]; intros seen seen' Hext; [reflexivity|].
  cbn [first_occurrences]. rewrite (Hext k).
  destruct (existsb (String.eqb k) seen'); [apply IH, Hext|].
  f_equal. apply IH. intros k0. cbn [existsb]. rewrite (Hext k0). reflexivity.
Qed.

(** The keys of the dict the decoder builds: those it had, then the new ones
    in the order of their first occurrence. *)
Lemma keys_fold_set_member members : forall acc,
  map fst (fold_left set_member members acc)
  = (map fst acc ++ first_occurrences (map fst acc) (map fst members))%list.
Proof.
  induction members as [|[k v] members IH]; intros acc; cbn [fold_left map fst].
  - cbn. rewrite app_nil_r. reflexivity.
  - rewrite IH. unfold set_member at 1 2. cbn [fst snd first_occurrences].
    rewrite keys_dict_set.
    destruct (existsb (String.eqb k) (map fst acc)) eqn:Hk; [reflexivity|].
    rewrite <- app_assoc. cbn [app]. do 2 f_equal.
    apply first_occurrences_ext. intros k0.
    rewrite existsb_eqb_app. cbn [existsb]. rewrite orb_false_r. apply orb_comm.
Qed.

(** A lookup in the dict the decoder builds gives the last value read for the
    key. *)
Lemma dict_get_fold_set_member members : forall acc k,
  dict_get (fold_left set_member members acc) k
  = match last_value members k with
    | Some v => Some (VStr v)
    | None => dict_get acc k
    end.
Proof.
  induction members as [|[k' v'] members IH]; intros acc k; cbn [fold_left last_value].
  - reflexivity.
  - rewrite IH. destruct (last_value members k); [reflexivity|].
    unfold set_member. cbn [fst snd]. rewrite dict_get_dict_set.
    destruct (String.eqb k' k); reflexivity.
Qed.

Lemma first_occurrences_fresh keys : forall seen,
  NoDup (first_occurrences seen keys)
  /\ forall k, In k (first_occurrences seen keys) -> existsb (String.eqb k) seen = false.
Proof.
  induction keys as [|k keys IH]; intros seen; cbn [first_occurrences].
  - split; [constructor | intros k []].
  - destruct (existsb (String.eqb k) seen) eqn:Hk; [apply IH|].
    destruct (IH (k :: seen)) as [Hnd Hfresh]. split.
    + constructor; [|exact Hnd]. intros Hin. apply Hfresh in Hin.
      cbn [existsb] in Hin. rewrite String.eqb_refl in Hin. discriminate.
    + intros k0 [<- | Hin]; [exact Hk|].
      apply Hfresh in Hin. cbn [existsb] in Hin.
      apply orb_false_iff in Hin. tauto.
Qed.

Lemma object_text_decodes_to_fold py members :
  Forall (fun kv => plain (fst kv) = true /\ plain (snd kv) = true) members ->
  loads py (object_text members) = Decoded (VDict (fold_left set_member members [])).
Proof.
  intros Hplain. destruct members as [|kv more]; [reflexivity|].
  pose proof (object_text_length (kv :: more)) as Hlen.
  unfold loads. unfold object_text in *.
  change ("{" ++ join ", " (map member_text (kv :: more)) ++ "}")
    with (String "{" (join ", " (map member_text (kv :: more)) ++ "}" ++ EmptyString)) in *.
  rewrite join_members in *.
  cbn [skip_ws is_ws Ascii.eqb Bool.eqb orb]. cbn [scan_once].
  cbn [Ascii.eqb Bool.eqb dquote skip_ws is_ws orb].
  rewrite (scan_pairs_members py _ more kv [] _ EmptyString Hplain)
    by (cbn [length String.length] in *; lia).
  reflexivity.
Qed.

(** A repeated key.  For the text of a flat object of plain strings, keys
    repeated or not, the decoded object has each key once, in the order of
    the first occurrences, with the value of its last occurrence; the
    description has one line per distinct key. *)
Theorem repeated_key_keeps_last_value (py : Runtime) (members : list (string * string)) :
  Forall (fun kv => plain (fst kv) = true /\ plain (snd kv) = true) members ->
  exists d,
    loads py (object_text members) = Decoded (VDict d)
    /\ map fst d = first_occurrences [] (map fst members)
    /\ NoDup (map fst d)
    /\ (forall k, dict_get d k = option_map VStr (last_value members k))
    /\ character_prompt_of py (VStr (object_text members))
       = Ok (VStr (join newline (map (render_item py) d))).
Proof.
  intros Hplain. exists (fold_left set_member members []).
  pose proof (object_text_decodes_to_fold py members Hplain) as Hloads.
  pose proof (keys_fold_set_member members []) as Hkeys. cbn [map app] in Hkeys.
  repeat split.
  - exact Hloads.
  - exact Hkeys.
  - rewrite Hkeys. apply first_occurrences_fresh.
  - intros k. rewrite dict_get_fold_set_member.
    destruct (last_value members k); reflexivity.
  - cbn [character_prompt_of]. rewrite object_text_braced, Hloads. reflexivity.
Qed.

Lemma repeated_key_keeps_last_value_witness :
  exists d,
    loads Examples.plain_runtime (object_text MoreExamples.hair_twice) = Decoded (VDict d)
    /\ map fst d = ["hair"; "eyes"]
    /\ NoDup (map fst d)
    /\ (forall k, dict_get d k = option_map VStr (last_value MoreExamples.hair_twice k))
    /\ character_prompt_of Examples.plain_runtime
         (VStr (object_text MoreExamples.hair_twice))
       = Ok (VStr (join newline (map (render_item Examples.plain_runtime) d))).
Proof.
  apply (repeated_key_keeps_last_value Examples.plain_runtime MoreExamples.hair_twice).
  repeat constructor.
Defined.

End NormalizerFacts.

(** ** Every execution of [run] *)

Module RunInvariants.
Import Py Json Env ImageGenerator IPFSHelper Agent Reading JsonFacts StringFacts AgentFacts
  CollaboratorFacts.

(** Every path through [run], for the proofs by cases below: the outcome and the
    calls of an execution, with the answers of the collaborators as equations. *)
Ltac run_cases Hrun :=
  revert Hrun; unfold_run; cbv zeta; intros Hrun;
  repeat case_step Hrun; cbn [app] in Hrun; injection Hrun as <- <-.

(** [run] marks a step Completed only for an artifact it uploaded in this
    execution: an update call is the fifth call, after the step read, the
    start log, a generation that returned an image and an upload of that image
    under the name made of the payload's [task_id]; the one artifact the update
    carries is the public gateway's URL of the content identifier that Pinata
    answered for that file. *)
Theorem update_reports_uploaded_artifact {Image : Type} (py : Runtime) (w : World Image)
    (data : dict) (r : result unit) (t : list (event Image))
    (did tid sid : value) (upd : dict) :
  run py w data [] = (r, t) ->
  In (UpdateStep did tid sid upd) t ->
  exists ltid c image answer cid,
    firstn 5 t = [GetStep sid; LogTask (start_log ltid); GenerateImage c;
                  Upload image (str py tid ++ ".png"); UpdateStep did tid sid upd]
    /\ generate_image w c = Ok image
    /\ upload_image_and_get_url w image (str py tid ++ ".png")
       = Ok (gateway_prefix ++ cid)
    /\ pin_file_to_ipfs w (str py tid ++ ".png") = Ok answer
    /\ dict_get answer "IpfsHash" = Some (VStr cid)
    /\ upd = completed_step sid tid (gateway_prefix ++ cid)
    /\ dict_get data "did" = Some did
    /\ dict_get data "task_id" = Some tid
    /\ dict_get data "step_id" = Some sid.
Proof.
  intros Hrun Hin. run_cases Hrun; cbn [In] in Hin;
    repeat match goal with
           | H : _ \/ _ |- _ => destruct H
           | H : False |- _ => contradiction
           | H : _ = UpdateStep _ _ _ _ |- _ => first [discriminate H | injection H as <- <- <- <-]
           end;
    match goal with
    | H : upload_image_and_get_url _ _ _ = Ok _ |- _ =>
        pose proof (proj1 (upload_ok_iff _ _ _ _) H)
          as (_ & _ & answer & cid & Hpin & Hcid & ->)
    end;
    do 3 eexists; exists answer, cid; repeat split; try reflexivity; eassumption.
Qed.

Lemma update_reports_uploaded_artifact_witness :
  exists ltid c image answer cid,
    firstn 5 (snd (run Examples.plain_runtime
                     (Examples.healthy_world Examples.pending_knight)
                     Examples.demo_data []))
    = [GetStep (VStr "step-1"); LogTask (start_log ltid); GenerateImage c;
       Upload image (str Examples.plain_runtime (VStr "task-1") ++ ".png");
       UpdateStep (VStr "did:nv:agent") (VStr "task-1") (VStr "step-1")
         (completed_step (VStr "step-1") (VStr "task-1")
            "https://gateway.pinata.cloud/ipfs/cid123")]
    /\ generate_image (Examples.healthy_world Examples.pending_knight) c = Ok image
    /\ upload_image_and_get_url (Examples.healthy_world Examples.pending_knight) image
         (str Examples.plain_runtime (VStr "task-1") ++ ".png")
       = Ok (gateway_prefix ++ cid)
    /\ pin_file_to_ipfs (Examples.healthy_world Examples.pending_knight)
         (str Examples.plain_runtime (VStr "task-1") ++ ".png") = Ok answer
    /\ dict_get answer "IpfsHash" = Some (VStr cid)
    /\ completed_step (VStr "step-1") (VStr "task-1")
         "https://gateway.pinata.cloud/ipfs/cid123"
       = completed_step (VStr "step-1") (VStr "task-1") (gateway_prefix ++ cid)
    /\ dict_get Examples.demo_data "did" = Some (VStr "did:nv:agent")
    /\ dict_get Examples.demo_data "task_id" = Some (VStr "task-1")
    /\ dict_get Examples.demo_data "step_id" = Some (VStr "step-1").
Proof.
  exact (update_reports_uploaded_artifact Examples.plain_runtime
           (Examples.healthy_world Examples.pending_knight) Examples.demo_data
           (fst (run Examples.plain_runtime (Examples.healthy_world Examples.pending_knight)
                   Examples.demo_data []))
           (snd (run Examples.plain_runtime (Examples.healthy_world Examples.pending_knight)
                   Examples.demo_data []))
           (VStr "did:nv:agent") (VStr "task-1") (VStr "step-1")
           (completed_step (VStr "step-1") (VStr "task-1")
              "https://gateway.pinata.cloud/ipfs/cid123")
           eq_refl
           (or_intror (or_intror (or_intror (or_intror (or_introl eq_refl)))))).
Defined.

(** [run] never retries: in every execution the step is read at most once,
    the image is uploaded at most once, the step is updated at most once, at
    most one log is made at error level, and at most three logs and seven
    calls are made in all. *)
Theorem no_call_is_repeated {Image : Type} (py : Runtime) (w : World Image)
    (data : dict) :
  length (filter is_get_step (snd (run py w data []))) <= 1
  /\ length (upload_calls (snd (run py w data []))) <= 1
  /\ length (update_calls (snd (run py w data []))) <= 1
  /\ length (error_logs (snd (run py w data []))) <= 1
  /\ length (log_calls (snd (run py w data []))) <= 3
  /\ length (snd (run py w data [])) <= 7.
Proof.
  destruct (run py w data []) as [r t] eqn:Hrun.
  run_cases Hrun; cbn; repeat split; lia.
Qed.

(** An error log is the last thing [run] does: it carries
    [task_status=Failed], no call follows it, and the outcome of [run] is the
    outcome of that log call. *)
Theorem error_log_ends_run {Image : Type} (py : Runtime) (w : World Image)
    (data : dict) (r : result unit) (t : list (event Image)) (i : nat) (l : TaskLog) :
  run py w data [] = (r, t) ->
  nth_error t i = Some (LogTask l) ->
  level l = "error" ->
  skipn (S i) t = []
  /\ task_status l = Some (status_value Failed)
  /\ r = log_task w l.
Proof.
  intros Hrun Hnth Hlevel. run_cases Hrun;
    repeat (destruct i as [|i]; cbn [nth_error] in Hnth; try discriminate Hnth);
    try (destruct i; discriminate Hnth);
    injection Hnth as <-; try discriminate Hlevel;
    repeat split; try reflexivity; congruence.
Qed.

Lemma error_log_ends_run_witness :
  skipn 3 (snd (run Examples.plain_runtime
                  (Examples.healthy_world (Examples.demo_step "Pending" None))
                  Examples.demo_data [])) = []
  /\ task_status (no_data_log (VStr "task-1")) = Some (status_value Failed)
  /\ fst (run Examples.plain_runtime
            (Examples.healthy_world (Examples.demo_step "Pending" None))
            Examples.demo_data [])
     = log_task (Examples.healthy_world (Examples.demo_step "Pending" None))
         (no_data_log (VStr "task-1")).
Proof.
  exact (error_log_ends_run Examples.plain_runtime
           (Examples.healthy_world (Examples.demo_step "Pending" None))
           Examples.demo_data
           (fst (run Examples.plain_runtime
                   (Examples.healthy_world (Examples.demo_step "Pending" None))
                   Examples.demo_data []))
           (snd (run Examples.plain_runtime
                   (Examples.healthy_world (Examples.demo_step "Pending" None))
                   Examples.demo_data []))
           2 (no_data_log (VStr "task-1")) eq_refl eq_refl eq_refl).
Defined.

(** [run] logs completion only for a step the gateway updated: a log with
    [task_status=Completed] comes right after an update call that the gateway
    answered. *)
Theorem completion_log_follows_accepted_update {Image : Type} (py : Runtime)
    (w : World Image) (data : dict) (r : result unit) (t : list (event Image))
    (i : nat) (l : TaskLog) :
  run py w data [] = (r, t) ->
  nth_error t i = Some (LogTask l) ->
  task_status l = Some (status_value Completed) ->
  exists did tid sid upd,
    i = 5
    /\ nth_error t 4 = Some (UpdateStep did tid sid upd)
    /\ update_step w did tid sid upd = Ok tt
    /\ is_completion (did, tid, sid, upd) = true.
Proof.
  intros Hrun Hnth Hstatus. run_cases Hrun;
    repeat (destruct i as [|i]; cbn [nth_error] in Hnth; try discriminate Hnth);
    try (destruct i; discriminate Hnth);
    injection Hnth as <-; try discriminate Hstatus;
    do 4 eexists; repeat split; try reflexivity;
    match goal with
    | H : update_step _ _ _ _ _ = Ok ?u |- _ => destruct u; exact H
    end.
Qed.

Lemma completion_log_follows_accepted_update_witness :
  exists did tid sid upd,
    5 = 5
    /\ nth_error (snd (run Examples.plain_runtime
                         (Examples.healthy_world Examples.pending_knight)
                         Examples.demo_data [])) 4
       = Some (UpdateStep did tid sid upd)
    /\ update_step (Examples.healthy_world Examples.pending_knight) did tid sid upd = Ok tt
    /\ is_completion (did, tid, sid, upd) = true.
Proof.
  exact (completion_log_follows_accepted_update Examples.plain_runtime
           (Examples.healthy_world Examples.pending_knight) Examples.demo_data
           (fst (run Examples.plain_runtime (Examples.healthy_world Examples.pending_knight)
                   Examples.demo_data []))
           (snd (run Examples.plain_runtime (Examples.healthy_world Examples.pending_knight)
                   Examples.demo_data []))
           5 (completed_log (VStr "task-1")) eq_refl eq_refl eq_refl).
Defined.



(** The Generation Capability is only ever invoked for a Pending step, after
    the start log was answered, as the third call, and on the description
    computed from the [input_query] of the step that was read, which is not
    empty. *)
Theorem generation_only_on_the_description {Image : Type} (py : Runtime)
    (w : World Image) (data : dict) (r : result unit) (t : list (event Image))
    (c : value) :
  run py w data [] = (r, t) ->
  In (GenerateImage c) t ->
  exists sid step tid,
    dict_get data "step_id" = Some sid
    /\ get_step w sid = Ok step
    /\ dict_get step "step_status" = Some (VStr (status_value Pending))
    /\ dict_get step "task_id" = Some tid
    /\ log_task w (start_log tid) = Ok tt
    /\ character_prompt_of py (dict_get_default step "input_query" (VStr EmptyString))
       = Ok c
    /\ truthy py c = true
    /\ firstn 3 t = [GetStep sid; LogTask (start_log tid); GenerateImage c].
Proof.
  intros Hrun Hin. run_cases Hrun; cbn [In] in Hin;
    repeat match goal with
           | H : _ \/ _ |- _ => destruct H
           | H : False |- _ => contradiction
           | H : _ = GenerateImage _ |- _ => first [discriminate H | injection H as <-]
           end;
    match goal with
    | H : differs_from ?st _ = false |- _ =>
        destruct st; try discriminate H; cbn in H;
        apply negb_false_iff, String.eqb_eq in H; subst
    end;
    match goal with
    | H : negb (truthy _ _) = false |- _ => apply negb_false_iff in H
    end;
    repeat match goal with
           | H : log_task _ _ = Ok ?u |- _ => is_var u; destruct u
           end;
    do 3 eexists; repeat split; try reflexivity; eassumption.
Qed.

Lemma generation_only_on_the_description_witness :
  exists sid step tid,
    dict_get Examples.demo_data "step_id" = Some sid
    /\ get_step (Examples.healthy_world Examples.pending_knight) sid = Ok step
    /\ dict_get step "step_status" = Some (VStr (status_value Pending))
    /\ dict_get step "task_id" = Some tid
    /\ log_task (Examples.healthy_world Examples.pending_knight) (start_log tid) = Ok tt
    /\ character_prompt_of Examples.plain_runtime
         (dict_get_default step "input_query" (VStr EmptyString)) = Ok Examples.knight
    /\ truthy Examples.plain_runtime Examples.knight = true
    /\ firstn 3 (snd (run Examples.plain_runtime
                        (Examples.healthy_world Examples.pending_knight)
                        Examples.demo_data []))
       = [GetStep sid; LogTask (start_log tid); GenerateImage Examples.knight].
Proof.
  exact (generation_only_on_the_description Examples.plain_runtime
           (Examples.healthy_world Examples.pending_knight) Examples.demo_data
           (fst (run Examples.plain_runtime (Examples.healthy_world Examples.pending_knight)
                   Examples.demo_data []))
           (snd (run Examples.plain_runtime (Examples.healthy_world Examples.pending_knight)
                   Examples.demo_data []))
           Examples.knight eq_refl (or_intror (or_intror (or_introl eq_refl)))).
Defined.

(** Every log entry is filed under the [task_id] of the step that was read,
    not under the payload's, and is one of four: the start log, the missing
    data log, the completion log, or the failure log of an error. *)
Theorem logs_use_the_task_id_of_the_step {Image : Type} (py : Runtime)
    (w : World Image) (data : dict) (r : result unit) (t : list (event Image))
    (l : TaskLog) :
  run py w data [] = (r, t) ->
  In (LogTask l) t ->
  exists sid step tid,
    dict_get data "step_id" = Some sid
    /\ get_step w sid = Ok step
    /\ dict_get step "task_id" = Some tid
    /\ (l = start_log tid \/ l = no_data_log tid \/ l = completed_log tid
        \/ exists e, l = failure_log tid e).
Proof.
  intros Hrun Hin. run_cases Hrun; cbn [In] in Hin;
    repeat match goal with
           | H : _ \/ _ |- _ => destruct H
           | H : False |- _ => contradiction
           | H : _ = LogTask _ |- _ => first [discriminate H | injection H as <-]
           end;
    do 3 eexists; (split; [reflexivity|]); (split; [eassumption|]);
    (split; [eassumption|]); eauto 6.
Qed.

Lemma logs_use_the_task_id_of_the_step_witness :
  exists sid step tid,
    dict_get Examples.demo_data "step_id" = Some sid
    /\ get_step (Examples.healthy_world Examples.pending_knight) sid = Ok step
    /\ dict_get step "task_id" = Some tid
    /\ (completed_log (VStr "task-1") = start_log tid
        \/ completed_log (VStr "task-1") = no_data_log tid
        \/ completed_log (VStr "task-1") = completed_log tid
        \/ exists e, completed_log (VStr "task-1") = failure_log tid e).
Proof.
  exact (logs_use_the_task_id_of_the_step Examples.plain_runtime
           (Examples.healthy_world Examples.pending_knight) Examples.demo_data
           (fst (run Examples.plain_runtime (Examples.healthy_world Examples.pending_knight)
                   Examples.demo_data []))
           (snd (run Examples.plain_runtime (Examples.healthy_world Examples.pending_knight)
                   Examples.demo_data []))
           (completed_log (VStr "task-1")) eq_refl
           (or_intror (or_intror (or_intror (or_intror (or_intror (or_introl eq_refl))))))).
Defined.

End RunInvariants.

(** ** The scenarios of [run] on a description that prints *)

Module RunScenarios.
Import Py Json Env ImageGenerator IPFSHelper Agent JsonFacts StringFacts AgentFacts.

(** The happy path.  For a Pending step whose input normalizes to a non-empty
    description that prints, when generation succeeds and the upload succeeds
    returning the URL [u] (the gateway answering its calls), [run] makes
    exactly two log calls, the start info log and a completion info log with
    [task_status=Completed], and exactly one step update, with
    [step_status=Completed], [is_last=true], [output_artifacts=[u]] and
    [output] set to a success message; the update comes before the
    completion log. *)
Theorem happy_path_calls {Image : Type} (py : Runtime) (w : World Image)
    (data step : dict) (sid tid did dtid : value) (desc : string)
    (image : Image) (u : string) :
  dict_get data "step_id" = Some sid ->
  dict_get data "task_id" = Some dtid ->
  dict_get data "did" = Some did ->
  get_step w sid = Ok step ->
  dict_get step "step_status" = Some (VStr (status_value Pending)) ->
  dict_get step "task_id" = Some tid ->
  character_prompt_of py (dict_get_default step "input_query" (VStr EmptyString))
    = Ok (VStr desc) ->
  desc <> EmptyString ->
  print (VStr desc) = Ok tt ->
  generate_image w (VStr desc) = Ok image ->
  upload_image_and_get_url w image (str py dtid ++ ".png") = Ok u ->
  log_task w (start_log tid) = Ok tt ->
  update_step w did dtid sid (completed_step sid dtid u) = Ok tt ->
  log_task w (completed_log tid) = Ok tt ->
  exists upd,
    run py w data [] =
      (Ok tt, [GetStep sid; LogTask (start_log tid); GenerateImage (VStr desc);
               Upload image (str py dtid ++ ".png");
               UpdateStep did dtid sid upd; LogTask (completed_log tid)])
    /\ log_calls (snd (run py w data [])) = [start_log tid; completed_log tid]
    /\ level (start_log tid) = "info"
    /\ level (completed_log tid) = "info"
    /\ task_status (completed_log tid) = Some "Completed"
    /\ update_calls (snd (run py w data [])) = [(did, dtid, sid, upd)]
    /\ dict_get upd "step_status" = Some (VStr "Completed")
    /\ dict_get upd "is_last" = Some (VBool true)
    /\ dict_get upd "output_artifacts" = Some (VList [VStr u])
    /\ dict_get upd "output" = Some (VStr "Image generated and uploaded to IPFS").
Proof.
  intros Hsid Hdtid Hdid Hget Hpend Htid Hcp Hdesc Hprint Hgen Hup Hstart Hupd Hdone.
  assert (Hrun : run py w data [] =
      (Ok tt, [GetStep sid; LogTask (start_log tid); GenerateImage (VStr desc);
               Upload image (str py dtid ++ ".png");
               UpdateStep did dtid sid (completed_step sid dtid u);
               LogTask (completed_log tid)])).
  { rewrite (run_started py w data step sid tid Hsid Hget Hpend Htid _ Hstart Hcp Hprint).
    assert (truthy py (VStr desc) = true) as ->.
    { simpl. destruct (String.eqb_spec desc EmptyString); [contradiction|reflexivity]. }
    unfold try_except.
    rewrite (generate_and_report_run py w data step sid tid Hsid Htid).
    rewrite Hgen. unfold getitem. rewrite Hdtid. cbv zeta. rewrite Hup, Hdid, Hupd, Hdone.
    reflexivity. }
  exists (completed_step sid dtid u). rewrite Hrun.
  repeat split; reflexivity.
Qed.

(** The happy path at the knight of the specification's example. *)
Lemma happy_path_calls_witness :
  exists upd,
    update_calls
      (snd (run Examples.plain_runtime (Examples.healthy_world Examples.pending_knight)
              Examples.demo_data []))
    = [(VStr "did:nv:agent", VStr "task-1", VStr "step-1", upd)]
    /\ dict_get upd "output_artifacts"
       = Some (VList [VStr "https://gateway.pinata.cloud/ipfs/cid123"]).
Proof.
  destruct (happy_path_calls Examples.plain_runtime
              (Examples.healthy_world Examples.pending_knight)
              Examples.demo_data Examples.pending_knight
              (VStr "step-1") (VStr "task-1") (VStr "did:nv:agent") (VStr "task-1")
              "a knight in silver armor" Examples.demo_image
              "https://gateway.pinata.cloud/ipfs/cid123"
              eq_refl eq_refl eq_refl eq_refl eq_refl eq_refl eq_refl
              ltac:(discriminate) eq_refl eq_refl eq_refl eq_refl eq_refl eq_refl)
    as (upd & _ & _ & _ & _ & _ & Hupd & _ & _ & Hart & _).
  exists upd. split; assumption.
Defined.



(** Missing character data.  For a Pending step whose [input_query] is in
    braces and on which [json.loads] raises [JSONDecodeError], the normalizer
    yields [None] without raising; for such a step, and for one whose
    normalized description is empty or [None], [run] (its start log answered)
    makes exactly one error log, with the message "No character data
    provided." and [task_status=Failed], no step update, no generation and no
    upload, and ends with that log call. *)
Theorem missing_character_data_logged {Image : Type} (py : Runtime) (w : World Image)
    (data step : dict) (sid tid : value) :
  dict_get data "step_id" = Some sid ->
  get_step w sid = Ok step ->
  dict_get step "step_status" = Some (VStr (status_value Pending)) ->
  dict_get step "task_id" = Some tid ->
  log_task w (start_log tid) = Ok tt ->
  let input_query := dict_get_default step "input_query" (VStr EmptyString) in
  ((exists s msg, input_query = VStr s /\ braced s = true
                  /\ loads py s = JSONDecodeError msg)
   \/ character_prompt_of py input_query = Ok VNone
   \/ character_prompt_of py input_query = Ok (VStr EmptyString)) ->
  ((exists s msg, input_query = VStr s /\ braced s = true
                  /\ loads py s = JSONDecodeError msg) ->
   character_prompt_of py input_query = Ok VNone)
  /\ exists t,
       run py w data [] = (log_task w (no_data_log tid), t)
       /\ error_logs t = [no_data_log tid]
       /\ message (no_data_log tid) = "No character data provided."
       /\ task_status (no_data_log tid) = Some "Failed"
       /\ update_calls t = []
       /\ generate_calls t = []
       /\ upload_calls t = [].
Proof.
  intros Hsid Hget Hpend Htid Hstart input_query Hcase.
  assert (Hparse : (exists s msg, input_query = VStr s /\ braced s = true
                                  /\ loads py s = JSONDecodeError msg) ->
                   character_prompt_of py input_query = Ok VNone).
  { intros (s & msg & -> & Hb & Hl). simpl. rewrite Hb, Hl. reflexivity. }
  split; [exact Hparse|].
  assert (Hv : exists v, character_prompt_of py input_query = Ok v
                         /\ print v = Ok tt /\ truthy py v = false).
  { destruct Hcase as [H | [H | H]].
    - exists VNone. split; [apply Hparse, H | split; reflexivity].
    - exists VNone. split; [exact H | split; reflexivity].
    - exists (VStr EmptyString). split; [exact H | split; reflexivity]. }
  destruct Hv as (v & Hcp & Hprint & Hfalse).
  rewrite (run_started py w data step sid tid Hsid Hget Hpend Htid _ Hstart Hcp Hprint).
  rewrite Hfalse.
  eexists; split; [reflexivity|]. repeat split; reflexivity.
Qed.

(** At the specification's example of a text in braces that is not JSON. *)
Lemma missing_character_data_logged_witness :
  character_prompt_of Examples.plain_runtime (VStr "{not valid json}") = Ok VNone
  /\ exists t,
       run Examples.plain_runtime
         (Examples.healthy_world
            (Examples.demo_step "Pending" (Some (VStr "{not valid json}"))))
         Examples.demo_data [] = (Ok tt, t)
       /\ error_logs t = [no_data_log (VStr "task-1")]
       /\ update_calls t = []
       /\ generate_calls t = []
       /\ upload_calls t = [].
Proof.
  destruct (missing_character_data_logged Examples.plain_runtime
              (Examples.healthy_world
                 (Examples.demo_step "Pending" (Some (VStr "{not valid json}"))))
              Examples.demo_data
              (Examples.demo_step "Pending" (Some (VStr "{not valid json}")))
              (VStr "step-1") (VStr "task-1") eq_refl eq_refl eq_refl eq_refl eq_refl
              (or_introl
                 (ex_intro _ "{not valid json}"
                    (ex_intro _ "Expecting property name enclosed in double quotes"
                       (conj eq_refl (conj eq_refl eq_refl))))))
    as (Hnone & t & Hrun & Hlogs & _ & _ & Hupd & Hgen & Hup).
  split.
  - apply Hnone. exists "{not valid json}", "Expecting property name enclosed in double quotes".
    repeat split; reflexivity.
  - exists t. repeat split; assumption.
Defined.

End RunScenarios.

(** ** Edge cases of [run] *)

Module RunEdges.
Import Py Json Env ImageGenerator IPFSHelper Agent Reading JsonFacts StringFacts AgentFacts.

(** A payload without [task_id]: the image is generated and then lost.  For a
    Pending step with a description that prints, once generation has returned
    an image the lookup of the payload's [task_id] for the file name raises
    [KeyError] inside the [try]: nothing is uploaded or updated, and the error
    log carries the message "Error during image generation: 'task_id'". *)
Theorem payload_without_task_id {Image : Type} (py : Runtime) (w : World Image)
    (data step : dict) (sid tid v : value) (image : Image) :
  dict_get data "step_id" = Some sid ->
  get_step w sid = Ok step ->
  dict_get step "step_status" = Some (VStr (status_value Pending)) ->
  dict_get step "task_id" = Some tid ->
  log_task w (start_log tid) = Ok tt ->
  character_prompt_of py (dict_get_default step "input_query" (VStr EmptyString)) = Ok v ->
  print v = Ok tt ->
  truthy py v = true ->
  generate_image w v = Ok image ->
  dict_get data "task_id" = None ->
  run py w data [] =
    (log_task w (failure_log tid (key_error "task_id")),
     [GetStep sid; LogTask (start_log tid); GenerateImage v;
      LogTask (failure_log tid (key_error "task_id"))])
  /\ message (failure_log tid (key_error "task_id"))
     = "Error during image generation: 'task_id'".
Proof.
  intros Hsid Hget Hpend Htid Hstart Hcp Hprint Htruthy Hgen Hnone.
  rewrite (run_started py w data step sid tid Hsid Hget Hpend Htid _ Hstart Hcp Hprint).
  rewrite Htruthy. unfold try_except.
  rewrite (generate_and_report_run py w data step sid tid Hsid Htid).
  rewrite Hgen. unfold getitem. rewrite Hnone.
  rewrite (report_failure_run w step tid Htid). split; reflexivity.
Qed.

Lemma payload_without_task_id_witness :
  run Examples.plain_runtime (Examples.healthy_world Examples.pending_knight)
    MoreExamples.data_without_task_id [] =
    (Ok tt,
     [GetStep (VStr "step-1"); LogTask (start_log (VStr "task-1"));
      GenerateImage Examples.knight;
      LogTask (failure_log (VStr "task-1") (key_error "task_id"))])
  /\ message (failure_log (VStr "task-1") (key_error "task_id"))
     = "Error during image generation: 'task_id'".
Proof.
  exact (payload_without_task_id Examples.plain_runtime
           (Examples.healthy_world Examples.pending_knight)
           MoreExamples.data_without_task_id Examples.pending_knight
           (VStr "step-1") (VStr "task-1") Examples.knight Examples.demo_image
           eq_refl eq_refl eq_refl eq_refl eq_refl eq_refl eq_refl eq_refl eq_refl
           eq_refl).
Defined.

(** A payload without [did]: the image is uploaded and never reported.  For
    a Pending step with a description that prints, after a generation and an
    upload that succeeded, the lookup of the payload's [did] for the update
    raises [KeyError] inside the [try]: no update call is made, and the error
    log carries "Error during image generation: 'did'". *)
Theorem payload_without_did {Image : Type} (py : Runtime) (w : World Image)
    (data step : dict) (sid tid dtid v : value) (image : Image) (u : string) :
  dict_get data "step_id" = Some sid ->
  get_step w sid = Ok step ->
  dict_get step "step_status" = Some (VStr (status_value Pending)) ->
  dict_get step "task_id" = Some tid ->
  log_task w (start_log tid) = Ok tt ->
  character_prompt_of py (dict_get_default step "input_query" (VStr EmptyString)) = Ok v ->
  print v = Ok tt ->
  truthy py v = true ->
  generate_image w v = Ok image ->
  dict_get data "task_id" = Some dtid ->
  upload_image_and_get_url w image (str py dtid ++ ".png") = Ok u ->
  dict_get data "did" = None ->
  run py w data [] =
    (log_task w (failure_log tid (key_error "did")),
     [GetStep sid; LogTask (start_log tid); GenerateImage v;
      Upload image (str py dtid ++ ".png");
      LogTask (failure_log tid (key_error "did"))])
  /\ message (failure_log tid (key_error "did"))
     = "Error during image generation: 'did'".
Proof.
  intros Hsid Hget Hpend Htid Hstart Hcp Hprint Htruthy Hgen Hdtid Hup Hnone.
  rewrite (run_started py w data step sid tid Hsid Hget Hpend Htid _ Hstart Hcp Hprint).
  rewrite Htruthy. unfold try_except.
  rewrite (generate_and_report_run py w data step sid tid Hsid Htid).
  rewrite Hgen. unfold getitem. rewrite Hdtid. cbv zeta. rewrite Hup, Hnone.
  rewrite (report_failure_run w step tid Htid). split; reflexivity.
Qed.

Lemma payload_without_did_witness :
  run Examples.plain_runtime (Examples.healthy_world Examples.pending_knight)
    MoreExamples.data_without_did [] =
    (Ok tt,
     [GetStep (VStr "step-1"); LogTask (start_log (VStr "task-1"));
      GenerateImage Examples.knight;
      Upload Examples.demo_image (str Examples.plain_runtime (VStr "task-1") ++ ".png");
      LogTask (failure_log (VStr "task-1") (key_error "did"))])
  /\ message (failure_log (VStr "task-1") (key_error "did"))
     = "Error during image generation: 'did'".
Proof.
  exact (payload_without_did Examples.plain_runtime
           (Examples.healthy_world Examples.pending_knight)
           MoreExamples.data_without_did Examples.pending_knight
           (VStr "step-1") (VStr "task-1") (VStr "task-1") Examples.knight
           Examples.demo_image "https://gateway.pinata.cloud/ipfs/cid123"
           eq_refl eq_refl eq_refl eq_refl eq_refl eq_refl eq_refl eq_refl eq_refl
           eq_refl eq_refl eq_refl).
Defined.

(** A step that misses a field: when the step read returns a step without
    [step_status], or a Pending step without [task_id], [run] raises
    [KeyError] for that field right after the read, outside the [try]: no log
    of any level is made and the error leaves [run]. *)
Theorem step_without_field {Image : Type} (py : Runtime) (w : World Image)
    (data step : dict) (sid : value) (k : string) :
  dict_get data "step_id" = Some sid ->
  get_step w sid = Ok step ->
  (k = "step_status" /\ dict_get step "step_status" = None
   \/ k = "task_id"
      /\ dict_get step "step_status" = Some (VStr (status_value Pending))
      /\ dict_get step "task_id" = None) ->
  run py w data [] = (Raise (key_error k), [GetStep sid]).
Proof.
  intros Hsid Hget [[-> Hnone] | (-> & Hpend & Hnone)];
    unfold_run; rewrite Hsid, Hget; cbn [app].
  - rewrite Hnone. reflexivity.
  - rewrite Hpend. cbn [differs_from status_value String.eqb Ascii.eqb Bool.eqb negb].
    rewrite Hnone. reflexivity.
Qed.

Lemma step_without_field_witness :
  run Examples.plain_runtime
    (Examples.healthy_world [("step_id", VStr "step-1"); ("step_status", VStr "Pending")])
    Examples.demo_data []
  = (Raise (key_error "task_id"), [GetStep (VStr "step-1")]).
Proof.
  exact (step_without_field Examples.plain_runtime
           (Examples.healthy_world
              [("step_id", VStr "step-1"); ("step_status", VStr "Pending")])
           Examples.demo_data
           [("step_id", VStr "step-1"); ("step_status", VStr "Pending")]
           (VStr "step-1") "task_id" eq_refl eq_refl
           (or_intror (conj eq_refl (conj eq_refl eq_refl)))).
Defined.

(** An [input_query] that is not a string (a number, a boolean, a list, an
    object, null) is never decoded.  When it is falsy it is reported as missing
    character data.  When it is truthy it is handed to [generate_image], which
    raises [TypeError] in [create_prompt] before the pipeline is asked
    anything, whatever the pipeline is: the step ends with the error log
    carrying that [TypeError], and nothing is uploaded or updated. *)
Theorem non_string_input_query {Image : Type} (py : Runtime) (w : World Image)
    (data step : dict) (sid tid v : value) :
  dict_get data "step_id" = Some sid ->
  get_step w sid = Ok step ->
  dict_get step "step_status" = Some (VStr (status_value Pending)) ->
  dict_get step "task_id" = Some tid ->
  log_task w (start_log tid) = Ok tt ->
  dict_get step "input_query" = Some v ->
  is_string v = false ->
  run py w data [] =
    if truthy py v
    then (log_task w (failure_log tid (type_error_concat v)),
          [GetStep sid; LogTask (start_log tid); GenerateImage v;
           LogTask (failure_log tid (type_error_concat v))])
    else (log_task w (no_data_log tid),
          [GetStep sid; LogTask (start_log tid); LogTask (no_data_log tid)]).
Proof.
  intros Hsid Hget Hpend Htid Hstart Hin Hstr.
  assert (Hcp : character_prompt_of py
                  (dict_get_default step "input_query" (VStr EmptyString)) = Ok v).
  { unfold dict_get_default. rewrite Hin. destruct v; try reflexivity; discriminate. }
  assert (Hprint : print v = Ok tt)
    by (apply print_not_string; destruct v; try exact I; discriminate).
  rewrite (run_started py w data step sid tid Hsid Hget Hpend Htid _ Hstart Hcp Hprint).
  destruct (truthy py v); [|reflexivity].
  unfold try_except.
  rewrite (generate_and_report_run py w data step sid tid Hsid Htid).
  assert (Hgen : generate_image w v = Raise (type_error_concat v))
    by (destruct v; try reflexivity; discriminate).
  rewrite Hgen, (report_failure_run w step tid Htid). reflexivity.
Qed.

Lemma non_string_input_query_witness :
  run Examples.plain_runtime
    (Examples.healthy_world (Examples.demo_step "Pending" (Some MoreExamples.object_input)))
    Examples.demo_data []
  = (Ok tt,
     [GetStep (VStr "step-1"); LogTask (start_log (VStr "task-1"));
      GenerateImage MoreExamples.object_input;
      LogTask (failure_log (VStr "task-1") (type_error_concat MoreExamples.object_input))]).
Proof.
  exact (non_string_input_query Examples.plain_runtime
           (Examples.healthy_world
              (Examples.demo_step "Pending" (Some MoreExamples.object_input)))
           Examples.demo_data
           (Examples.demo_step "Pending" (Some MoreExamples.object_input))
           (VStr "step-1") (VStr "task-1") MoreExamples.object_input
           eq_refl eq_refl eq_refl eq_refl eq_refl eq_refl eq_refl).
Defined.

(** No trimming and no validation of free text: any non-empty [input_query]
    text that is not in braces and that prints (it holds no lone surrogate),
    blank text included, is the description [generate_image] is called with,
    character for character. *)
Theorem free_text_reaches_generation_verbatim {Image : Type} (py : Runtime)
    (w : World Image) (data step : dict) (sid tid : value) (s : string) :
  dict_get data "step_id" = Some sid ->
  get_step w sid = Ok step ->
  dict_get step "step_status" = Some (VStr (status_value Pending)) ->
  dict_get step "task_id" = Some tid ->
  log_task w (start_log tid) = Ok tt ->
  dict_get step "input_query" = Some (VStr s) ->
  braced s = false ->
  s <> EmptyString ->
  print (VStr s) = Ok tt ->
  generate_calls (snd (run py w data [])) = [VStr s]
  /\ firstn 3 (snd (run py w data []))
     = [GetStep sid; LogTask (start_log tid); GenerateImage (VStr s)].
Proof.
  intros Hsid Hget Hpend Htid Hstart Hin Hb Hne Hprint.
  assert (Hcp : character_prompt_of py
                  (dict_get_default step "input_query" (VStr EmptyString)) = Ok (VStr s)).
  { unfold dict_get_default. rewrite Hin. cbn. rewrite Hb. reflexivity. }
  rewrite (run_started py w data step sid tid Hsid Hget Hpend Htid _ Hstart Hcp Hprint).
  assert (truthy py (VStr s) = true) as ->.
  { cbn. destruct (String.eqb_spec s EmptyString); [contradiction|reflexivity]. }
  unfold try_except.
  rewrite (generate_and_report_run py w data step sid tid Hsid Htid).
  unfold getitem.
  cbv zeta.
  repeat match goal with
         | |- context [match ?x with _ => _ end] =>
             lazymatch x with
             | context [match _ with _ => _ end] => fail
             | _ => destruct x
             end
         end;
    try rewrite (report_failure_run w step tid Htid); split; reflexivity.
Qed.

Lemma free_text_reaches_generation_verbatim_witness :
  generate_calls
    (snd (run Examples.plain_runtime
            (Examples.healthy_world (Examples.demo_step "Pending" (Some (VStr "   "))))
            Examples.demo_data [])) = [VStr "   "]
  /\ firstn 3
       (snd (run Examples.plain_runtime
               (Examples.healthy_world (Examples.demo_step "Pending" (Some (VStr "   "))))
               Examples.demo_data []))
     = [GetStep (VStr "step-1"); LogTask (start_log (VStr "task-1"));
        GenerateImage (VStr "   ")].
Proof.
  exact (free_text_reaches_generation_verbatim Examples.plain_runtime
           (Examples.healthy_world (Examples.demo_step "Pending" (Some (VStr "   "))))
           Examples.demo_data (Examples.demo_step "Pending" (Some (VStr "   ")))
           (VStr "step-1") (VStr "task-1") "   "
           eq_refl eq_refl eq_refl eq_refl eq_refl eq_refl eq_refl
           ltac:(discriminate) eq_refl).
Defined.

End RunEdges.
